(** * Vision App: image transformation and size-report pipeline

    A shallow embedding of [app.py] (a Streamlit front end over OpenCV, NumPy
    and Pillow) and the properties of its transformation / encoding /
    size-report pipeline.

    Layout:
    - [PyFloat]: Python's [float] (binary64, round to nearest even) as far as
      the program uses it: [int / int], [-], [/], [*] and [int(float)];
    - [ndarray], [pil_image]: NumPy arrays of 8-bit samples and Pillow images;
    - [Cv2]: the OpenCV calls the program makes ([cvtColor], [resize],
      [imdecode], [GaussianBlur], [Canny]);
    - [Backend]: the codecs and the resampling kernel, which the program
      treats as trusted primitives, with the contracts it relies on;
    - [Pil]: [Image.fromarray] and [Image.save] with their keyword options;
    - [App]: the functions of [app.py], [main] included;
    - [Reference]: a small backend on which the program runs;
    - lemmas on the model, then the properties of the program. *)

From Stdlib Require Import String Ascii ZArith List Lia Bool.
From coqutil Require Import Byte.
Import ListNotations.
Local Open Scope Z_scope.

(* ================================================================= *)
(** ** Exceptions and results *)

(** The exceptions the program can meet.  [CvError] is [cv2.error], raised by
    an OpenCV assertion; [PilError] stands for what Pillow raises;
    [IndexError] and [TypeError] are Python's, met when a shape is too short
    and when [None] reaches an OpenCV call. *)
Inductive exn : Type :=
| ZeroDivisionError
| CvError (what : string)
| PilError (what : string)
| IndexError
| TypeError (what : string).

Inductive result (A : Type) : Type :=
| Ok (a : A)
| Raise (e : exn).
Arguments Ok {A} a.
Arguments Raise {A} e.

Definition bind {A B : Type} (r : result A) (k : A -> result B) : result B :=
  match r with
  | Ok a => k a
  | Raise e => Raise e
  end.

(* ================================================================= *)
(** ** Python floats *)

Module PyFloat.

(** A finite binary64 value [mant * 2 ^ expo].  The exponent range is not
    modelled (no overflow, no subnormals): the program's floats are byte
    counts divided by [2^20], pixel counts divided by [100] and a percentage. *)
Record float : Type := mk { mant : Z; expo : Z }.

Definition zero : float := mk 0 0.

Definition is_zero (x : float) : bool := mant x =? 0.

(** Nearest integer to [num / den], ties to even ([0 <= num], [0 < den]). *)
Definition rne_div (num den : Z) : Z :=
  let q := num / den in
  let r := num mod den in
  match 2 * r ?= den with
  | Lt => q
  | Gt => q + 1
  | Eq => if Z.even q then q else q + 1
  end.

(** [num / den] scaled by [2 ^ (- e)], as a fraction. *)
Definition scaled (num den e : Z) : Z * Z :=
  if 0 <=? e then (num, den * 2 ^ e) else (num * 2 ^ (- e), den).

(** The exponent [e] for which [2^52 <= (num/den) / 2^e < 2^53]
    ([0 < num], [0 < den]). *)
Definition binade (num den : Z) : Z :=
  let e1 := Z.log2 num - Z.log2 den - 52 in
  let '(n1, d1) := scaled num den e1 in
  if n1 <? 2 ^ 52 * d1 then e1 - 1 else e1.

(** Correct rounding of the rational [num / den] ([0 < den]) to 53 bits. *)
Definition round_pos (num den : Z) : float :=
  let e := binade num den in
  let '(n, d) := scaled num den e in
  mk (rne_div n d) e.

Definition round_ratio (num den : Z) : float :=
  match num ?= 0 with
  | Eq => zero
  | Gt => round_pos num den
  | Lt => let r := round_pos (- num) den in mk (- mant r) (expo r)
  end.

(** The rational value of a float, as a fraction with a positive denominator. *)
Definition to_ratio (x : float) : Z * Z :=
  if 0 <=? expo x then (mant x * 2 ^ expo x, 1) else (mant x, 2 ^ (- expo x)).

(** [a / b] on Python ints: the correctly rounded quotient;
    [ZeroDivisionError] when [b] is [0]. *)
Definition truediv_int (a b : Z) : result float :=
  if b =? 0 then Raise ZeroDivisionError
  else if 0 <? b then Ok (round_ratio a b)
  else Ok (round_ratio (- a) (- b)).

(** [x - y], [x * y] and [x / y] on floats: the exact result, rounded. *)
Definition sub (x y : float) : float :=
  let '(nx, dx) := to_ratio x in
  let '(ny, dy) := to_ratio y in
  round_ratio (nx * dy - ny * dx) (dx * dy).

Definition mul (x y : float) : float :=
  let '(nx, dx) := to_ratio x in
  let '(ny, dy) := to_ratio y in
  round_ratio (nx * ny) (dx * dy).

Definition div (x y : float) : result float :=
  if is_zero y then Raise ZeroDivisionError
  else
    let '(nx, dx) := to_ratio x in
    let '(ny, dy) := to_ratio y in
    if 0 <? ny then Ok (round_ratio (nx * dy) (dx * ny))
    else Ok (round_ratio (- (nx * dy)) (- (dx * ny))).

Definition of_int (n : Z) : float := round_ratio n 1.

(** [int(x)]: truncation toward zero. *)
Definition to_int (x : float) : Z :=
  if 0 <=? expo x then mant x * 2 ^ expo x
  else Z.quot (mant x) (2 ^ (- expo x)).

End PyFloat.

(* ================================================================= *)
(** ** NumPy arrays and Pillow images *)

(** Encoded files and buffers. *)
Definition bytes : Type := list byte.

(** A NumPy array of 8-bit samples: its [shape] and its samples in row-major
    order.  The program meets 2-D arrays [(h, w)] and 3-D arrays [(h, w, c)]. *)
Record ndarray : Type := mk_ndarray { shape : list Z; data : list Z }.

(** Height, width and channel count as OpenCV reads them from an array
    (a 2-D array is a single-channel image). *)
Definition dims (a : ndarray) : option (Z * Z * Z) :=
  match shape a with
  | [h; w] => Some (h, w, 1)
  | [h; w; c] => Some (h, w, c)
  | _ => None
  end.

(** An image array as the pipeline holds it: positive height and width, one
    sample in [0, 255] per position. *)
Definition wf_image (a : ndarray) : Prop :=
  match dims a with
  | Some (h, w, c) =>
      0 < h /\ 0 < w /\ 0 < c /\
      Z.of_nat (length (data a)) = h * w * c /\
      Forall (fun v => 0 <= v <= 255) (data a)
  | None => False
  end.

Definition range (n : Z) : list Z := map Z.of_nat (seq 0 (Z.to_nat n)).

(** The samples of an [h * w * c] image given sample by sample. *)
Definition tabulate (h w c : Z) (f : Z -> Z -> Z -> Z) : list Z :=
  flat_map (fun y => flat_map (fun x => map (f y x) (range c)) (range w)) (range h).

(** Sample [k] of the pixel in row [y], column [x] of an image of width [w]
    with [c] channels. *)
Definition sample (w c : Z) (d : list Z) (y x k : Z) : Z :=
  nth (Z.to_nat ((y * w + x) * c + k)) d 0.

(** A 3-D image of one colour, and a 2-D image of one value. *)
Definition solid (h w : Z) (px : list Z) : ndarray :=
  mk_ndarray [h; w; Z.of_nat (length px)] (concat (repeat px (Z.to_nat (h * w)))).

Definition solid2 (h w v : Z) : ndarray :=
  mk_ndarray [h; w] (repeat v (Z.to_nat (h * w))).

(** Pillow's image modes with 8-bit bands: the modes in which JPEG files and
    PNG files of 8-bit or palette colour open.  Images of another depth (a
    bilevel or a 16-bit PNG) are outside this model. *)
Inductive pil_mode : Type := L | P | LA | RGB | RGBA | CMYK.

Definition bands (m : pil_mode) : Z :=
  match m with
  | L | P => 1
  | LA => 2
  | RGB => 3
  | RGBA | CMYK => 4
  end.

(** A Pillow image: [size] is [(width, height)].  [Image.open] reads the
    header of the file and leaves its data for later: [pixels] holds the
    samples the data decodes to, which fill the image unless the file is
    truncated or damaged. *)
Record pil_image : Type :=
  mk_pil { mode : pil_mode; size : Z * Z; pixels : list Z }.

(** [np.array(img)].  This is the call that decodes the data of a lazily
    opened image, and it raises when the samples do not fill the image.  A
    single-band image gives a 2-D array, the others a 3-D array with one
    channel per band. *)
Definition np_array (img : pil_image) : result ndarray :=
  let '(w, h) := size img in
  if negb (Z.of_nat (length (pixels img)) =? w * h * bands (mode img)) then
    Raise (PilError "image file is truncated")
  else if bands (mode img) =? 1 then Ok (mk_ndarray [h; w] (pixels img))
  else Ok (mk_ndarray [h; w; bands (mode img)] (pixels img)).

(* ================================================================= *)
(** ** OpenCV *)

Module Cv2.

(** *** cvtColor *)

Inductive color_code : Type :=
| COLOR_RGBA2RGB
| COLOR_RGB2BGR
| COLOR_BGR2RGB
| COLOR_BGR2GRAY.

(** Fixed-point luma weights of the 8-bit conversion: 15 fractional bits, the
    three weights summing to [2^15].  (Older OpenCV releases use 14 fractional
    bits, weights 1868, 9617 and 4899, which sum to [2^14].) *)
Definition BY15 : Z := 3735.
Definition GY15 : Z := 19235.
Definition RY15 : Z := 9798.
Definition gray_shift : Z := 15.

Definition bgr2gray_px (b g r : Z) : Z :=
  Z.shiftr (b * BY15 + g * GY15 + r * RY15 + Z.shiftl 1 (gray_shift - 1)) gray_shift.

(** Pixel-wise maps over 3- and 4-channel sample lists. *)
Fixpoint map_px3 (f : Z -> Z -> Z -> list Z) (d : list Z) : list Z :=
  match d with
  | a :: b :: c :: rest => f a b c ++ map_px3 f rest
  | _ => []
  end.

Fixpoint map_px4 (f : Z -> Z -> Z -> Z -> list Z) (d : list Z) : list Z :=
  match d with
  | a :: b :: c :: e :: rest => f a b c e ++ map_px4 f rest
  | _ => []
  end.

Definition is_empty (h w : Z) : bool := (h <=? 0) || (w <=? 0).

(** The 3- or 4-channel to 3-channel conversions, with or without the swap of
    the first and third channel. *)
Definition cvt_to3 (swap : bool) (scn : Z) (d : list Z) : list Z :=
  if scn =? 3 then
    map_px3 (fun a b c => if swap then [c; b; a] else [a; b; c]) d
  else
    map_px4 (fun a b c _ => if swap then [c; b; a] else [a; b; c]) d.

Definition cvt_gray (scn : Z) (d : list Z) : list Z :=
  if scn =? 3 then map_px3 (fun b g r => [bgr2gray_px b g r]) d
  else map_px4 (fun b g r _ => [bgr2gray_px b g r]) d.

(** Gray to 3 channels: the sample is written to each of them. *)
Definition cvt_gray2bgr (d : list Z) : list Z := flat_map (fun v => [v; v; v]) d.

(** Whether a code of the BGR/RGB family exchanges the first and third
    channel. *)
Definition swaps (code : color_code) : bool :=
  match code with
  | COLOR_RGBA2RGB => false
  | _ => true
  end.

(** [cv2.cvtColor(src, code)].  An empty source fails an assertion.  The codes
    of the BGR/RGB family (reordering, dropping alpha) take 3 or 4 source
    channels and also a single one, which they treat as gray and replicate;
    [COLOR_BGR2GRAY] takes 3 or 4.  Any other channel count fails an
    assertion. *)
Definition cvtColor (src : ndarray) (code : color_code) : result ndarray :=
  match dims src with
  | None => Raise (CvError "cvtColor: unsupported array")
  | Some (h, w, scn) =>
      if is_empty h w then Raise (CvError "cvtColor: !_src.empty()")
      else
        match code with
        | COLOR_BGR2GRAY =>
            if (scn =? 3) || (scn =? 4) then
              Ok (mk_ndarray [h; w] (cvt_gray scn (data src)))
            else Raise (CvError "cvtColor: invalid number of channels in input image")
        | COLOR_RGBA2RGB | COLOR_RGB2BGR | COLOR_BGR2RGB =>
            if scn =? 1 then Ok (mk_ndarray [h; w; 3] (cvt_gray2bgr (data src)))
            else if (scn =? 3) || (scn =? 4) then
              Ok (mk_ndarray [h; w; 3] (cvt_to3 (swaps code) scn (data src)))
            else Raise (CvError "cvtColor: invalid number of channels in input image")
        end
  end.

(** *** resize *)

(** Shape of an [h * w] image with the channel layout of [src]. *)
Definition like_shape (src : ndarray) (h w : Z) : list Z :=
  match shape src with
  | [_; _; c] => [h; w; c]
  | _ => [h; w]
  end.

(** [cv2.resize(src, (width, height), interpolation=cv2.INTER_AREA)], with the
    scale factors left at 0: a [dsize] that is empty makes OpenCV fall back on
    them and fail its assertion.  [kernel] gives the resampled samples. *)
Definition resize (kernel : ndarray -> Z -> Z -> list Z)
    (src : ndarray) (dsize : Z * Z) : result ndarray :=
  let '(width, height) := dsize in
  match dims src with
  | None => Raise (CvError "resize: unsupported array")
  | Some (h, w, _) =>
      if is_empty h w then Raise (CvError "resize: !ssize.empty()")
      else if is_empty height width then Raise (CvError "resize: inv_scale_x > 0")
      else Ok (mk_ndarray (like_shape src height width) (kernel src width height))
  end.

(** *** imdecode *)

Inductive imread_flag : Type := IMREAD_UNCHANGED | IMREAD_GRAYSCALE | IMREAD_COLOR.

(** What a flag makes of the image stored in a file.  [IMREAD_COLOR] always
    gives a 3-channel BGR image: a gray file is replicated over the channels,
    an alpha channel is dropped. *)
Definition apply_flag (flag : imread_flag) (stored : ndarray) : option ndarray :=
  match flag, shape stored with
  | IMREAD_UNCHANGED, _ => Some stored
  | IMREAD_COLOR, [h; w] =>
      Some (mk_ndarray [h; w; 3] (flat_map (fun v => [v; v; v]) (data stored)))
  | IMREAD_COLOR, [h; w; c] =>
      if c =? 3 then Some stored
      else if c =? 4 then Some (mk_ndarray [h; w; 3] (cvt_to3 false 4 (data stored)))
      else None
  | IMREAD_GRAYSCALE, [h; w] => Some stored
  | IMREAD_GRAYSCALE, [h; w; c] =>
      if (c =? 3) || (c =? 4) then Some (mk_ndarray [h; w] (cvt_gray c (data stored)))
      else None
  | _, _ => None
  end.

(** [cv2.imdecode(buf, flag)]: [None] when the buffer holds no image the
    decoder reads, an assertion failure on an empty buffer. *)
Definition imdecode (decoder : bytes -> option ndarray)
    (buf : bytes) (flag : imread_flag) : result (option ndarray) :=
  match buf with
  | [] => Raise (CvError "imdecode: !buf.empty()")
  | _ =>
      match decoder buf with
      | None => Ok None
      | Some stored => Ok (apply_flag flag stored)
      end
  end.

(** *** GaussianBlur *)

(** [BORDER_REFLECT_101] (the default border): [... 2 1 | 0 1 2 ... | 1 0 ...]. *)
Definition border_reflect_101 (p len : Z) : Z :=
  if len =? 1 then 0
  else
    let period := 2 * (len - 1) in
    let r := p mod period in
    if r <? len then r else period - r.

(** The fixed kernels OpenCV uses when sigma is not positive and the size is at
    most 7, as 8-bit fixed-point weights (they sum to [256]). *)
Definition small_gaussian_tab (n : Z) : option (list Z) :=
  if n =? 1 then Some [256]
  else if n =? 3 then Some [64; 128; 64]
  else if n =? 5 then Some [16; 64; 96; 64; 16]
  else if n =? 7 then Some [8; 28; 56; 72; 56; 28; 8]
  else None.

(** [sum_i k[i] * f (pos + i)]. *)
Fixpoint weighted_sum (k : list Z) (f : Z -> Z) (pos : Z) : Z :=
  match k with
  | [] => 0
  | c :: k' => c * f pos + weighted_sum k' f (pos + 1)
  end.

Definition convolve (k : list Z) (f : Z -> Z) (centre : Z) : Z :=
  weighted_sum k f (centre - Z.of_nat (length k) / 2).

(** One output sample of the separable 8-bit filter: the row pass, the column
    pass, then rounding of the 16 fractional bits. *)
Definition blur_sample (kx ky : list Z) (h w c : Z) (d : list Z) (y x k : Z) : Z :=
  let row yy :=
    convolve kx
      (fun xx => sample w c d (border_reflect_101 yy h) (border_reflect_101 xx w) k) x in
  Z.shiftr (convolve ky row y + Z.shiftl 1 15) 16.

(** [cv2.GaussianBlur(src, ksize, sigmaX)] on 8-bit images, for the kernels of
    the fixed table ([sigmaX = 0], odd sizes up to 7); the program's call is
    [GaussianBlur(gray, (5, 5), 0)].  Kernels computed from a sigma are outside
    this model. *)
Definition GaussianBlur (src : ndarray) (ksize : Z * Z) (sigmaX : Z) : result ndarray :=
  let '(kw, kh) := ksize in
  match dims src with
  | None => Raise (CvError "GaussianBlur: unsupported array")
  | Some (h, w, c) =>
      if is_empty h w then Raise (CvError "GaussianBlur: !_src.empty()")
      else
        match sigmaX =? 0, small_gaussian_tab kw, small_gaussian_tab kh with
        | true, Some kx, Some ky =>
            Ok (mk_ndarray (shape src) (tabulate h w c (blur_sample kx ky h w c (data src))))
        | _, _, _ => Raise (CvError "GaussianBlur: kernel outside the fixed table")
        end
  end.

(** *** Canny *)

Definition border_replicate (p len : Z) : Z := Z.max 0 (Z.min p (len - 1)).

Definition in_image (h w y x : Z) : bool :=
  (0 <=? y) && (y <? h) && (0 <=? x) && (x <? w).

Section Gradient.

Variables (h w c : Z) (d : list Z).

Definition px (y x k : Z) : Z :=
  sample w c d (border_replicate y h) (border_replicate x w) k.

(** The 3x3 Sobel derivatives, border replicated. *)
Definition sobel_dx (y x k : Z) : Z :=
  (px (y - 1) (x + 1) k + 2 * px y (x + 1) k + px (y + 1) (x + 1) k)
  - (px (y - 1) (x - 1) k + 2 * px y (x - 1) k + px (y + 1) (x - 1) k).

Definition sobel_dy (y x k : Z) : Z :=
  (px (y + 1) (x - 1) k + 2 * px (y + 1) x k + px (y + 1) (x + 1) k)
  - (px (y - 1) (x - 1) k + 2 * px (y - 1) x k + px (y - 1) (x + 1) k).

Definition l1 (g : Z * Z) : Z := Z.abs (fst g) + Z.abs (snd g).

(** The gradient of a pixel: that of the channel where it is largest. *)
Definition grad (y x : Z) : Z * Z :=
  fold_left
    (fun best k =>
       let g := (sobel_dx y x k, sobel_dy y x k) in
       if l1 best <? l1 g then g else best)
    (range c) (sobel_dx y x 0, sobel_dy y x 0).

(** The magnitude buffer, zero around the image. *)
Definition mag (y x : Z) : Z :=
  if in_image h w y x then l1 (grad y x) else 0.

Definition TG22 : Z := 13573.

(** Whether the magnitude of a pixel is a maximum along the direction of its
    gradient, the direction taken as horizontal, vertical or one of the two
    diagonals. *)
Definition local_max (y x : Z) : bool :=
  let m := mag y x in
  let '(xs, ys) := grad y x in
  let ax := Z.abs xs in
  let ay := Z.shiftl (Z.abs ys) 15 in
  let tg22x := ax * TG22 in
  if ay <? tg22x then (mag y (x - 1) <? m) && (mag y (x + 1) <=? m)
  else
    let tg67x := tg22x + Z.shiftl ax 16 in
    if tg67x <? ay then (mag (y - 1) x <? m) && (mag (y + 1) x <=? m)
    else
      let s := if Z.lxor xs ys <? 0 then -1 else 1 in
      (mag (y - 1) (x - s) <? m) && (mag (y + 1) (x + s) <? m).

(** Non-maximum suppression: [1] is no edge, [0] may belong to an edge,
    [2] does belong to one. *)
Definition nms (low high y x : Z) : Z :=
  let m := mag y x in
  if low <? m then
    if local_max y x then (if high <? m then 2 else 0) else 1
  else 1.

End Gradient.

(** The edge map, [1] around the image. *)
Definition map_at (h w : Z) (m : list Z) (y x : Z) : Z :=
  if in_image h w y x then nth (Z.to_nat (y * w + x)) m 1 else 1.

Definition neighbours (y x : Z) : list (Z * Z) :=
  [(y - 1, x - 1); (y - 1, x); (y - 1, x + 1);
   (y, x - 1); (y, x + 1);
   (y + 1, x - 1); (y + 1, x); (y + 1, x + 1)].

(** One round of hysteresis: a candidate next to an edge pixel joins the edge. *)
Definition hysteresis_step (h w : Z) (m : list Z) : list Z :=
  tabulate h w 1
    (fun y x _ =>
       let v := map_at h w m y x in
       if (v =? 0) && existsb (fun q => map_at h w m (fst q) (snd q) =? 2) (neighbours y x)
       then 2 else v).

Fixpoint iterate {A : Type} (n : nat) (f : A -> A) (a : A) : A :=
  match n with
  | O => a
  | S n' => iterate n' f (f a)
  end.

(** Edges grow along candidates until nothing changes; [h * w] rounds are
    enough, each round that changes the map turning a candidate into an edge
    pixel ([hysteresis_fixpoint] below). *)
Definition hysteresis (h w : Z) (m : list Z) : list Z :=
  iterate (Z.to_nat (h * w)) (hysteresis_step h w) m.

(** [cv2.Canny(image, threshold1, threshold2)] on an 8-bit image: Sobel
    aperture 3, L1 gradient magnitude.  The smaller threshold is the low one
    whatever the order of the arguments. *)
Definition Canny (image : ndarray) (threshold1 threshold2 : Z) : result ndarray :=
  match dims image with
  | None => Raise (CvError "Canny: unsupported array")
  | Some (h, w, c) =>
      if is_empty h w then Raise (CvError "Canny: !_src.empty()")
      else
        let low := Z.min threshold1 threshold2 in
        let high := Z.max threshold1 threshold2 in
        let m0 := tabulate h w 1 (fun y x _ => nms h w c (data image) low high y x) in
        Ok (mk_ndarray [h; w]
              (map (fun v => if v =? 2 then 255 else 0) (hysteresis h w m0)))
  end.

End Cv2.

(* ================================================================= *)
(** ** The trusted primitives *)

(** The codecs of Pillow and OpenCV and OpenCV's area-averaging resampling
    kernel.  The program calls them and relies on nothing but their contracts
    ([BackendLaws] below). *)
Record Backend : Type := mk_backend {
  (** [Image.open(file)] *)
  pil_open : bytes -> result pil_image;
  (** Pillow's PNG writer, given the [optimize] flag and the zlib level *)
  png_write : pil_image -> bool -> Z -> result bytes;
  (** Pillow's JPEG writer, given the quality and the [optimize] flag *)
  jpeg_write : pil_image -> Z -> bool -> result bytes;
  (** [cv2.imencode('.jpg', img, [cv2.IMWRITE_JPEG_QUALITY, q])] *)
  cv_jpeg_encode : ndarray -> Z -> result bytes;
  (** the image a buffer stores, when OpenCV's decoders read one *)
  cv_decode : bytes -> option ndarray;
  (** the samples of [src] resampled to [width * height] with [INTER_AREA] *)
  inter_area : ndarray -> Z -> Z -> list Z
}.

(** The largest width and height a JPEG stream is written with. *)
Definition JPEG_MAX_DIMENSION : Z := 65500.

(** What the program relies on:
    - Pillow does not identify an empty file as an image;
    - the JPEG writer accepts every 3-channel 8-bit image whose sides are at
      most [JPEG_MAX_DIMENSION], at every quality, and its stream is not empty;
    - decoding a stream the JPEG writer produced gives an image (gray or
      3-channel) of the height and width that was written;
    - the resampling kernel fills the requested size. *)
Record BackendLaws (B : Backend) : Prop := mk_laws {
  pil_open_empty :
    exists e, pil_open B [] = Raise e;
  jpeg_encode_accepts :
    forall h w d q,
      0 < h <= JPEG_MAX_DIMENSION -> 0 < w <= JPEG_MAX_DIMENSION ->
      Z.of_nat (length d) = h * w * 3 ->
      exists buf, cv_jpeg_encode B (mk_ndarray [h; w; 3] d) q = Ok buf;
  jpeg_stream_nonempty :
    forall img q, cv_jpeg_encode B img q <> Ok [];
  jpeg_decode_encode :
    forall img q buf h w c,
      cv_jpeg_encode B img q = Ok buf -> dims img = Some (h, w, c) ->
      exists stored,
        cv_decode B buf = Some stored /\
        (shape stored = [h; w] \/ shape stored = [h; w; 3]);
  inter_area_length :
    forall src width height h w c,
      dims src = Some (h, w, c) -> 0 < c -> 0 < width -> 0 < height ->
      Z.of_nat (length (inter_area B src width height)) = height * width * c
}.

(* ================================================================= *)
(** ** Pillow *)

Inductive image_format : Type := PNG | JPEG.

Module Pil.

(** The values the program passes as keyword arguments. *)
Inductive pyval : Type :=
| PyBool (b : bool)
| PyInt (z : Z).

(** [params.get(key, default)] on the keyword arguments of [save]. *)
Fixpoint get (params : list (string * pyval)) (key : string) (default : pyval) : pyval :=
  match params with
  | [] => default
  | (k, v) :: rest => if String.eqb k key then v else get rest key default
  end.

Definition truthy (v : pyval) : bool :=
  match v with
  | PyBool b => b
  | PyInt z => negb (z =? 0)
  end.

Definition as_int (v : pyval) : Z :=
  match v with
  | PyBool b => if b then 1 else 0
  | PyInt z => z
  end.

(** [Image.fromarray(a)] on an 8-bit array: the mode follows the shape. *)
Definition fromarray (a : ndarray) : result pil_image :=
  match shape a with
  | [h; w] => Ok (mk_pil L (w, h) (data a))
  | [h; w; c] =>
      if c =? 2 then Ok (mk_pil LA (w, h) (data a))
      else if c =? 3 then Ok (mk_pil RGB (w, h) (data a))
      else if c =? 4 then Ok (mk_pil RGBA (w, h) (data a))
      else Raise (TypeError "Cannot handle this data type")
  | _ => Raise (TypeError "Cannot handle this data type")
  end.

(** [img.save(buf, format=..., **params)].  The keyword arguments become the
    encoder's options and each writer reads the options it knows by name: the
    PNG writer reads [optimize] and [compress_level] (default [-1]), the JPEG
    writer reads [quality] (default [-1]) and [optimize].  Other names are
    not read. *)
Definition save (png : pil_image -> bool -> Z -> result bytes)
    (jpeg : pil_image -> Z -> bool -> result bytes)
    (img : pil_image) (format : image_format) (params : list (string * pyval))
    : result bytes :=
  match format with
  | PNG =>
      png img (truthy (get params "optimize" (PyBool false)))
        (as_int (get params "compress_level" (PyInt (-1))))
  | JPEG =>
      jpeg img (as_int (get params "quality" (PyInt (-1))))
        (truthy (get params "optimize" (PyBool false)))
  end.

End Pil.

(* ================================================================= *)
(** ** Streamlit *)

(** What the page shows, in order.  Sizes and percentages are kept as floats
    (the program formats them with two and one decimals). *)
Inductive st_event : Type :=
| st_error (msg : string) (e : exn)
| st_sidebar_write_original_size (mb : PyFloat.float)
| st_subheader (text : string)
| st_image_pil (img : pil_image)
| st_image (img : option ndarray)
| st_write_processed_size (mb : PyFloat.float)
| st_write_size_reduction (percent : PyFloat.float)
| st_download_button (label : string) (payload : bytes) (file_name mime : string).

(** A computation that shows events and then returns or raises. *)
Definition io (A : Type) : Type := (list st_event * result A)%type.

Definition ret {A : Type} (a : A) : io A := ([], Ok a).

Definition emit (e : st_event) : io unit := ([e], Ok tt).

Definition lift {A : Type} (r : result A) : io A := ([], r).

Definition io_bind {A B : Type} (m : io A) (k : A -> io B) : io B :=
  match m with
  | (ev, Ok a) => let '(ev', r) := k a in (ev ++ ev', r)
  | (ev, Raise e) => (ev, Raise e)
  end.

(** [try: m  except Exception as e: handler e] *)
Definition try_except {A : Type} (m : io A) (handler : exn -> io A) : io A :=
  match m with
  | (ev, Raise e) => let '(ev', r) := handler e in (ev ++ ev', r)
  | (ev, Ok a) => (ev, Ok a)
  end.

Notation "x <- m ;; k" := (io_bind m (fun x => k))
  (at level 61, m at next level, right associativity).
Notation "m ;;; k" := (io_bind m (fun _ => k))
  (at level 61, right associativity).

(* ================================================================= *)
(** ** app.py *)

Module App.

Section WithBackend.

Variable B : Backend.

Local Open Scope string_scope.

(** [str.lower] on ASCII text. *)
Definition lower_char (ch : ascii) : ascii :=
  let n := nat_of_ascii ch in
  if (65 <=? n)%nat && (n <=? 90)%nat then ascii_of_nat (n + 32) else ch.

Fixpoint lower (s : string) : string :=
  match s with
  | EmptyString => EmptyString
  | String ch rest => String (lower_char ch) (lower rest)
  end.

(** [a.shape[i]] *)
Definition shape_at (a : ndarray) (i : nat) : result Z :=
  match nth_error (shape a) i with
  | Some n => Ok n
  | None => Raise IndexError
  end.

(** [cv2.cvtColor] on a Python value that may be [None]. *)
Definition cvtColor_obj (src : option ndarray) (code : Cv2.color_code) : result ndarray :=
  match src with
  | None => Raise (TypeError "cvtColor: src is not a numpy array")
  | Some a => Cv2.cvtColor a code
  end.

Definition load_image (image_file : bytes) : io (option pil_image) :=
  try_except
    (img <- lift (pil_open B image_file) ;;
     ret (Some img))
    (fun e =>
       emit (st_error "Error loading image: " e) ;;;
       ret None).

Definition convert_to_cv2 (pil_img : pil_image) : io (option ndarray) :=
  try_except
    (numpy_img <- lift (np_array pil_img) ;;
     numpy_img <-
       (if (length (shape numpy_img) =? 3)%nat && (nth 2 (shape numpy_img) 0 =? 4)%Z
        then lift (Cv2.cvtColor numpy_img Cv2.COLOR_RGBA2RGB)
        else ret numpy_img) ;;
     opencv_img <- lift (Cv2.cvtColor numpy_img Cv2.COLOR_RGB2BGR) ;;
     ret (Some opencv_img))
    (fun e =>
       emit (st_error "Error converting image: " e) ;;;
       ret None).

(** [int(n * resize_percent / 100)] *)
Definition scaled_side (n resize_percent : Z) : result Z :=
  bind (PyFloat.truediv_int (n * resize_percent) 100) (fun f => Ok (PyFloat.to_int f)).

Definition process_image (cv2_image : ndarray) (transform_option : string)
    (resize_percent edge_low edge_high compression_quality jpeg_quality : Z)
    : io (option ndarray * option ndarray) :=
  try_except
    (if transform_option =? "Resized" then
       if negb (resize_percent =? 100)%Z then
         s1 <- lift (shape_at cv2_image 1) ;;
         width <- lift (scaled_side s1 resize_percent) ;;
         s0 <- lift (shape_at cv2_image 0) ;;
         height <- lift (scaled_side s0 resize_percent) ;;
         processed <- lift (Cv2.resize (inter_area B) cv2_image (width, height)) ;;
         encoded <- lift (cv_jpeg_encode B processed jpeg_quality) ;;
         processed <- lift (Cv2.imdecode (cv_decode B) encoded Cv2.IMREAD_COLOR) ;;
         display <- lift (cvtColor_obj processed Cv2.COLOR_BGR2RGB) ;;
         ret (processed, Some display)
       else
         display <- lift (Cv2.cvtColor cv2_image Cv2.COLOR_BGR2RGB) ;;
         ret (Some cv2_image, Some display)
     else if transform_option =? "Grayscale" then
       processed <- lift (Cv2.cvtColor cv2_image Cv2.COLOR_BGR2GRAY) ;;
       ret (Some processed, Some processed)
     else if transform_option =? "Edge Detection" then
       gray <- lift (Cv2.cvtColor cv2_image Cv2.COLOR_BGR2GRAY) ;;
       blurred <- lift (Cv2.GaussianBlur gray (5, 5) 0) ;;
       processed <- lift (Cv2.Canny blurred edge_low edge_high) ;;
       ret (Some processed, Some processed)
     else ret (None, None))
    (fun e =>
       emit (st_error "Error processing image: " e) ;;;
       ret (None, None)).

(** [len(buf.getvalue()) / (1024 * 1024)] *)
Definition get_file_size (buf : bytes) : result PyFloat.float :=
  PyFloat.truediv_int (Z.of_nat (length buf)) (1024 * 1024).

(** The widgets' values: four sliders and the select box. *)
Record widgets : Type := mk_widgets {
  resize_percent : Z;
  edge_low : Z;
  edge_high : Z;
  compression_quality : Z;
  jpeg_quality : Z;
  transform_option : string
}.

(** Lines 122-137 of [main]: the buffer behind the download button, with the
    format it is written in. *)
Definition save_processed (processed_img : ndarray) (compression_quality jpeg_quality : Z)
    : result (image_format * bytes) :=
  if (length (shape processed_img) =? 2)%nat then
    bind (Pil.fromarray processed_img) (fun im =>
    bind (Pil.save (png_write B) (jpeg_write B) im PNG
            [("optimize", Pil.PyBool true);
             ("compression_level", Pil.PyInt compression_quality)])
         (fun buf => Ok (PNG, buf)))
  else
    bind (Cv2.cvtColor processed_img Cv2.COLOR_BGR2RGB) (fun rgb =>
    bind (Pil.fromarray rgb) (fun im =>
    bind (Pil.save (png_write B) (jpeg_write B) im JPEG
            [("quality", Pil.PyInt jpeg_quality);
             ("optimize", Pil.PyBool true)])
         (fun buf => Ok (JPEG, buf)))).

(** Line 142 of [main]: [(original_size - processed_size) / original_size * 100] *)
Definition size_reduction (original_size processed_size : PyFloat.float)
    : result PyFloat.float :=
  bind (PyFloat.div (PyFloat.sub original_size processed_size) original_size)
       (fun q => Ok (PyFloat.mul q (PyFloat.of_int 100))).

(** Lines 144-149 of [main]. *)
Definition download_button (buf : bytes) (transform_option : string) : st_event :=
  st_download_button "Download processed image" buf
    ("processed_" ++ lower transform_option ++ ".jpg") "image/jpeg".

(** Lines 117-149 of [main]: what is shown for a processed image. *)
Definition show_processed (original_size : PyFloat.float)
    (processed_img : ndarray) (display_img : option ndarray) (ui : widgets) : io unit :=
  emit (st_subheader (transform_option ui ++ " Image")) ;;;
  emit (st_image display_img) ;;;
  saved <- lift (save_processed processed_img (compression_quality ui) (jpeg_quality ui)) ;;
  let buf := snd saved in
  processed_size <- lift (get_file_size buf) ;;
  emit (st_write_processed_size processed_size) ;;;
  reduction <- lift (size_reduction original_size processed_size) ;;
  emit (st_write_size_reduction reduction) ;;;
  emit (download_button buf (transform_option ui)).

(** [main], for one run of the script: the uploaded file, if any, and the
    values of the widgets.  An exception that leaves [main] is the run's
    result. *)
Definition main (uploaded_file : option bytes) (ui : widgets) : io unit :=
  match uploaded_file with
  | None => ret tt
  | Some file =>
      original_size <- lift (PyFloat.truediv_int (Z.of_nat (length file)) (1024 * 1024)) ;;
      emit (st_sidebar_write_original_size original_size) ;;;
      image <- load_image file ;;
      match image with
      | None => ret tt
      | Some image =>
          cv2_image <- convert_to_cv2 image ;;
          match cv2_image with
          | None => ret tt
          | Some cv2_image =>
              emit (st_subheader "Original Image") ;;;
              emit (st_image_pil image) ;;;
              emit (st_subheader "Transformation Controls") ;;;
              emit (st_subheader "Compression Controls") ;;;
              out <- process_image cv2_image (transform_option ui) (resize_percent ui)
                       (edge_low ui) (edge_high ui) (compression_quality ui)
                       (jpeg_quality ui) ;;
              match fst out with
              | None => ret tt
              | Some processed_img => show_processed original_size processed_img (snd out) ui
              end
          end
      end
  end.

End WithBackend.

End App.

(* ================================================================= *)
(** ** The specification's grayscale value *)

(** The specification's [toGrayscale], in its words: per-pixel luma weighting
    with the standard perceptual weights [0.299], [0.587], [0.114], the output
    sample the rounded weighted sum, clamped to [0, 255]. *)
Definition spec_luma (r g b : Z) : Z :=
  Z.min 255 (Z.max 0 ((299 * r + 587 * g + 114 * b + 500) / 1000)).

(* ================================================================= *)
(** ** The specification's edge pipeline *)




(* ================================================================= *)
(** ** A reference backend *)

(** An uncompressed container standing in for the codecs, and nearest-pixel
    sampling standing in for the resampling kernel: enough to run the program
    on small images.  The container is a tag, the height and the width on two
    bytes each, the channel count and the samples. *)
Module Reference.

Definition put16 (n : Z) : bytes := [byte.of_Z (n / 256); byte.of_Z n].

Definition get16 (hi lo : byte) : Z := 256 * byte.unsigned hi + byte.unsigned lo.

Definition container_write (tag : Z) (img : ndarray) : result bytes :=
  match dims img with
  | Some (h, w, c) =>
      if (0 <? h) && (h <=? JPEG_MAX_DIMENSION) && (0 <? w) && (w <=? JPEG_MAX_DIMENSION)
         && ((c =? 1) || (c =? 3))
      then Ok (byte.of_Z tag :: put16 h ++ put16 w ++ [byte.of_Z c]
                 ++ map byte.of_Z (data img))
      else Raise (CvError "container: unsupported image")
  | None => Raise (CvError "container: unsupported array")
  end.

Definition container_read (buf : bytes) : option ndarray :=
  match buf with
  | _ :: hh :: hl :: wh :: wl :: cb :: body =>
      let h := get16 hh hl in
      let w := get16 wh wl in
      let c := byte.unsigned cb in
      if c =? 1 then Some (mk_ndarray [h; w] (map byte.unsigned body))
      else if c =? 3 then Some (mk_ndarray [h; w; 3] (map byte.unsigned body))
      else None
  | _ => None
  end.

Definition open (file : bytes) : result pil_image :=
  match container_read file with
  | Some a =>
      match shape a with
      | [h; w] => Ok (mk_pil L (w, h) (data a))
      | [h; w; _] => Ok (mk_pil RGB (w, h) (data a))
      | _ => Raise (PilError "cannot identify image file")
      end
  | None => Raise (PilError "cannot identify image file")
  end.

Definition nearest (src : ndarray) (width height : Z) : list Z :=
  match dims src with
  | Some (h, w, c) =>
      tabulate height width c
        (fun y x k => sample w c (data src) (y * h / height) (x * w / width) k)
  | None => []
  end.

Definition backend : Backend :=
  mk_backend open
    (fun im _ _ => bind (np_array im) (container_write 80))
    (fun im _ _ => bind (np_array im) (container_write 74))
    (fun a _ => container_write 74 a)
    container_read
    nearest.


End Reference.

(* ================================================================= *)
(** ** Auxiliary definitions *)





(** Small inputs on which the program is run below. *)
Definition tiny_widgets : App.widgets := App.mk_widgets 100 100 200 6 85 "Grayscale".
Definition edge_widgets : App.widgets := App.mk_widgets 100 100 200 6 85 "Edge Detection".
Definition gray_5x5 : ndarray := solid 5 5 [128; 128; 128].
Definition gray_20x20 : ndarray := solid 20 20 [128; 128; 128].
Definition flat_4x4 : ndarray := solid 4 4 [30; 20; 10].
Definition two_pixels : ndarray := mk_ndarray [1; 2; 3] [30; 20; 10; 0; 0; 255].
Definition resampled_10x10 : ndarray :=
  mk_ndarray [10; 10; 3] (Reference.nearest gray_20x20 10 10).
Definition resized_10x10 : ndarray := mk_ndarray [10; 10; 3] (repeat 128 300).
Definition gray_png : pil_image := mk_pil L (2, 2) [10; 20; 30; 40].
Definition palette_png : pil_image := mk_pil P (1, 2) [3; 7].
Definition rgba_pixel : pil_image := mk_pil RGBA (1, 1) [10; 20; 30; 255].
Definition rgb_file : bytes :=
  map byte.of_Z [74; 0; 1; 0; 2; 3; 10; 20; 30; 10; 20; 30].
Definition rgb_pixel : pil_image := mk_pil RGB (1, 1) [10; 20; 30].
Definition cmyk_pixel : pil_image := mk_pil CMYK (1, 1) [10; 20; 30; 40].
Definition flat_edges_png : bytes := map byte.of_Z ([80; 0; 4; 0; 4; 1] ++ repeat 0 16).

(** What the body of [process_image] may give: nothing shown, and either a
    bitmap with the image to display, or neither. *)
Definition paired (v : option ndarray * option ndarray) : Prop :=
  (exists a d, v = (Some a, Some d)) \/ v = (None, None).

Definition quiet_paired (m : io (option ndarray * option ndarray)) : Prop :=
  fst m = [] /\ forall v, snd m = Ok v -> paired v.

(* ================================================================= *)
(** ** The model on small inputs *)

(** Quotients and a size report, as CPython computes them. *)
Example ex_truediv :
  map (fun ab => PyFloat.truediv_int (fst ab) (snd ab))
    [(5, 100); (1, 3); (2, 3); (35, 100); (1, 1048576); (123456789, 1048576)]
  = map Ok
      [PyFloat.mk 7205759403792794 (-57); PyFloat.mk 6004799503160661 (-54);
       PyFloat.mk 6004799503160661 (-53); PyFloat.mk 6305039478318694 (-54);
       PyFloat.mk 4503599627370496 (-72); PyFloat.mk 8285044862877696 (-46)].
Proof. vm_compute. reflexivity. Qed.

Example ex_size_reduction :
  App.size_reduction (PyFloat.round_ratio 12 1048576) (PyFloat.round_ratio 8 1048576)
  = Ok (PyFloat.mk 4691249611844266 (-47)).
Proof. vm_compute. reflexivity. Qed.

Example ex_scaled_side_half : App.scaled_side 5 10 = Ok 0.
Proof. vm_compute. reflexivity. Qed.

Example ex_canny_step :
  Cv2.Canny (mk_ndarray [4; 6] [0;0;0;200;200;200; 0;0;0;200;200;200;
                                0;0;0;200;200;200; 0;0;0;200;200;200]) 50 150
  = Ok (mk_ndarray [4; 6] [0;0;255;0;0;0; 0;0;255;0;0;0; 0;0;255;0;0;0; 0;0;255;0;0;0]).
Proof. vm_compute. reflexivity. Qed.

(* ================================================================= *)
(** ** Floats: rounding and truncation *)

Lemma rne_div_lower num den : 0 <= num -> 0 < den -> num / den <= PyFloat.rne_div num den.
Proof.
  intros Hn Hd. unfold PyFloat.rne_div.
  destruct (2 * (num mod den) ?= den); [destruct (Z.even (num / den)) | |]; lia.
Qed.

Lemma rne_div_upper num den :
  0 <= num -> 0 < den -> 2 * den * PyFloat.rne_div num den <= 2 * num + den.
Proof.
  intros Hn Hd. unfold PyFloat.rne_div.
  pose proof (Z.div_mod num den ltac:(lia)) as E.
  pose proof (Z.mod_pos_bound num den Hd) as R.
  destruct (Z.compare_spec (2 * (num mod den)) den) as [C|C|C];
    [destruct (Z.even (num / den)) | |]; nia.
Qed.

Lemma binade_le num den :
  PyFloat.binade num den <= Z.log2 num - Z.log2 den - 52.
Proof.
  unfold PyFloat.binade.
  destruct (PyFloat.scaled num den (Z.log2 num - Z.log2 den - 52)) as [n1 d1].
  destruct (n1 <? 2 ^ 52 * d1); lia.
Qed.

Lemma scaled_gt num den e n d :
  0 < num -> 0 < den -> e <= Z.log2 num - Z.log2 den - 52 ->
  PyFloat.scaled num den e = (n, d) -> 0 < d < n.
Proof.
  intros Hn Hd He.
  destruct (Z.log2_spec num Hn) as [La Ua].
  destruct (Z.log2_spec den Hd) as [Lb Ub].
  pose proof (Z.log2_nonneg num) as Na.
  pose proof (Z.log2_nonneg den) as Nb.
  unfold PyFloat.scaled. destruct (Z.leb_spec 0 e) as [P|P]; intros [= <- <-].
  - assert (0 < 2 ^ e) by (apply Z.pow_pos_nonneg; lia).
    split; [nia|].
    assert (2 ^ (Z.succ (Z.log2 den)) * 2 ^ e <= 2 ^ Z.log2 num).
    { rewrite <- Z.pow_add_r by lia. apply Z.pow_le_mono_r; lia. }
    nia.
  - split; [lia|].
    assert (0 < 2 ^ (- e)) by (apply Z.pow_pos_nonneg; lia).
    assert (2 ^ (Z.succ (Z.log2 den)) <= 2 ^ Z.log2 num * 2 ^ (- e)).
    { rewrite <- Z.pow_add_r by lia. apply Z.pow_le_mono_r; lia. }
    nia.
Qed.

Lemma round_pos_mant_pos num den :
  0 < num -> 0 < den -> 0 < PyFloat.mant (PyFloat.round_pos num den).
Proof.
  intros Hn Hd. unfold PyFloat.round_pos.
  destruct (PyFloat.scaled num den (PyFloat.binade num den)) as [n d] eqn:E.
  apply scaled_gt in E; auto using binade_le. simpl.
  pose proof (rne_div_lower n d ltac:(lia) ltac:(lia)).
  assert (1 <= n / d) by (apply Z.div_le_lower_bound; lia). lia.
Qed.

Lemma round_ratio_is_zero num den :
  0 < den -> PyFloat.is_zero (PyFloat.round_ratio num den) = (num =? 0).
Proof.
  intros Hd. unfold PyFloat.round_ratio, PyFloat.is_zero.
  destruct (Z.compare_spec num 0) as [C|C|C].
  - subst. reflexivity.
  - pose proof (round_pos_mant_pos (- num) den ltac:(lia) Hd). simpl.
    destruct (Z.eqb_spec (- PyFloat.mant (PyFloat.round_pos (- num) den)) 0);
      destruct (Z.eqb_spec num 0); try reflexivity; lia.
  - pose proof (round_pos_mant_pos num den C Hd).
    destruct (Z.eqb_spec (PyFloat.mant (PyFloat.round_pos num den)) 0);
      destruct (Z.eqb_spec num 0); try reflexivity; lia.
Qed.

(** [int(n / 100)] is the floor of [n / 100] as long as [n] is exact as a float. *)
Lemma to_int_truediv_100 n :
  0 <= n < 2 ^ 53 ->
  PyFloat.truediv_int n 100 = Ok (PyFloat.round_ratio n 100) /\
  PyFloat.to_int (PyFloat.round_ratio n 100) = n / 100.
Proof.
  intros [Hn Hb]. split; [reflexivity|].
  unfold PyFloat.round_ratio.
  destruct (Z.compare_spec n 0) as [C|C|C]; [subst; reflexivity | lia |].
  unfold PyFloat.round_pos.
  pose proof (binade_le n 100) as He.
  assert (L : Z.log2 n < 53) by (apply Z.log2_lt_pow2; lia).
  change (Z.log2 100) with 6 in He.
  set (e := PyFloat.binade n 100) in *.
  unfold PyFloat.scaled. destruct (Z.leb_spec 0 e) as [P|P]; [lia|].
  unfold PyFloat.to_int; simpl.
  destruct (Z.leb_spec 0 e) as [P'|_]; [lia|].
  assert (S : 2 ^ 6 <= 2 ^ (- e)) by (apply Z.pow_le_mono_r; lia).
  change (2 ^ 6) with 64 in S.
  set (s := 2 ^ (- e)) in *.
  pose proof (rne_div_lower (n * s) 100 ltac:(nia) ltac:(lia)) as Lo.
  pose proof (rne_div_upper (n * s) 100 ltac:(nia) ltac:(lia)) as Up.
  set (m := PyFloat.rne_div (n * s) 100) in *.
  pose proof (Z.div_mod n 100 ltac:(lia)) as E.
  pose proof (Z.mod_pos_bound n 100 ltac:(lia)) as R.
  assert (Lo' : (n / 100) * s <= m).
  { etransitivity; [|exact Lo]. apply Z.div_le_lower_bound; nia. }
  assert (K : 0 <= n / 100) by (apply Z.div_pos; lia).
  rewrite Z.quot_div_nonneg by nia.
  symmetry. apply Z.div_unique with (r := m - (n / 100) * s); nia.
Qed.

(* ================================================================= *)
(** ** Lists and image samples *)

Lemma length_range n : length (range n) = Z.to_nat n.
Proof. unfold range. now rewrite length_map, length_seq. Qed.




Lemma flat_map_length_const {A B : Type} (g : A -> list B) (m : nat) (l : list A) :
  (forall a, length (g a) = m) -> length (flat_map g l) = (length l * m)%nat.
Proof.
  intros H. induction l as [|a l IH]; simpl; [reflexivity|].
  now rewrite length_app, H, IH.
Qed.

Lemma length_tabulate h w c f :
  length (tabulate h w c f) = (Z.to_nat h * (Z.to_nat w * Z.to_nat c))%nat.
Proof.
  unfold tabulate.
  rewrite flat_map_length_const with (m := (Z.to_nat w * Z.to_nat c)%nat).
  - now rewrite length_range.
  - intros y. rewrite flat_map_length_const with (m := Z.to_nat c).
    + now rewrite length_range.
    + intros x. now rewrite length_map, length_range.
Qed.

Lemma length_tabulate_Z h w c f :
  0 <= h -> 0 <= w -> 0 <= c -> Z.of_nat (length (tabulate h w c f)) = h * w * c.
Proof. intros. rewrite length_tabulate. lia. Qed.




Lemma concat_repeat_singleton {A : Type} (a : A) n :
  concat (repeat [a] n) = repeat a n.
Proof. induction n; simpl; congruence. Qed.

Lemma map_px3_repeat f a b c n :
  Cv2.map_px3 f (concat (repeat [a; b; c] n)) = concat (repeat (f a b c) n).
Proof. induction n as [|n IH]; simpl; [reflexivity|]. now rewrite IH. Qed.

Lemma length_map_px3_one (g : Z -> Z -> Z -> Z) n : forall d,
  length d = (3 * n)%nat -> length (Cv2.map_px3 (fun a b c => [g a b c]) d) = n.
Proof.
  induction n as [|n IH]; intros d H.
  - destruct d; [reflexivity | discriminate].
  - destruct d as [|a [|b [|c d]]]; simpl in H; try lia.
    simpl. f_equal. apply IH. lia.
Qed.




(* ================================================================= *)
(** ** File sizes and the size report *)

Lemma get_file_size_ok (buf : bytes) :
  App.get_file_size buf = Ok (PyFloat.round_ratio (Z.of_nat (length buf)) (1024 * 1024)).
Proof. reflexivity. Qed.

Lemma get_file_size_is_zero (buf : bytes) (s : PyFloat.float) :
  App.get_file_size buf = Ok s -> PyFloat.is_zero s = true <-> buf = [].
Proof.
  rewrite get_file_size_ok. intros [= <-].
  rewrite round_ratio_is_zero by lia.
  destruct buf as [|b buf]; simpl length.
  - split; reflexivity.
  - split; [|discriminate]. intros H. apply Z.eqb_eq in H. lia.
Qed.

Lemma size_reduction_raises o p :
  PyFloat.is_zero o = true -> App.size_reduction o p = Raise ZeroDivisionError.
Proof. intros H. unfold App.size_reduction, PyFloat.div. rewrite H. reflexivity. Qed.

Lemma size_reduction_returns o p :
  PyFloat.is_zero o = false -> exists r, App.size_reduction o p = Ok r.
Proof.
  intros H. unfold App.size_reduction, PyFloat.div. rewrite H.
  destruct (PyFloat.to_ratio (PyFloat.sub o p)) as [nx dx].
  destruct (PyFloat.to_ratio o) as [ny dy].
  destruct (0 <? ny); simpl; eauto.
Qed.

(* ================================================================= *)
(** ** The event monad and the resize branch *)

Lemma io_bind_lift_ok {A B : Type} (a : A) (k : A -> io B) :
  io_bind (lift (Ok a)) k = k a.
Proof. unfold io_bind, lift. now destruct (k a). Qed.

Lemma io_bind_ret {A B : Type} (a : A) (k : A -> io B) :
  io_bind (ret a) k = k a.
Proof. apply io_bind_lift_ok. Qed.

Lemma scaled_side_floor n p :
  0 <= n * p < 2 ^ 53 -> App.scaled_side n p = Ok (n * p / 100).
Proof.
  intros H. unfold App.scaled_side.
  destruct (to_int_truediv_100 (n * p) H) as [E1 E2].
  rewrite E1. cbn [bind]. now rewrite E2.
Qed.

Lemma scaled_side_total n p : exists v, App.scaled_side n p = Ok v.
Proof. unfold App.scaled_side, PyFloat.truediv_int. simpl. eauto. Qed.

Lemma small_product n p : 0 < n -> 0 < p -> n * p / 100 = 0 -> 0 <= n * p < 2 ^ 53.
Proof.
  intros Hn Hp H. split; [nia|].
  pose proof (Z.div_mod (n * p) 100 ltac:(lia)).
  pose proof (Z.mod_pos_bound (n * p) 100 ltac:(lia)). lia.
Qed.

Ltac step := first [rewrite io_bind_lift_ok | rewrite io_bind_ret].

Lemma apply_flag_color stored h w :
  shape stored = [h; w] \/ shape stored = [h; w; 3] ->
  exists d, Cv2.apply_flag Cv2.IMREAD_COLOR stored = Some (mk_ndarray [h; w; 3] d).
Proof.
  unfold Cv2.apply_flag. intros [E|E]; rewrite E.
  - eauto.
  - simpl. destruct stored as [s d]; simpl in *; subst. eauto.
Qed.

Section Resize.

Variables (B : Backend) (HB : BackendLaws B).
Variables (img : ndarray) (h w : Z).
Hypotheses (Hshape : shape img = [h; w; 3]) (Hh : 0 < h) (Hw : 0 < w).
Variables (p el eh cq q : Z).
Hypotheses (Hp : 10 <= p <= 200) (Hne : p <> 100).

Lemma resized_ok :
  0 < h * p / 100 <= JPEG_MAX_DIMENSION ->
  0 < w * p / 100 <= JPEG_MAX_DIMENSION ->
  exists d,
    App.process_image B img "Resized" p el eh cq q
    = ([], Ok (Some (mk_ndarray [h * p / 100; w * p / 100; 3] d),
               Some (mk_ndarray [h * p / 100; w * p / 100; 3] (Cv2.cvt_to3 true 3 d)))).
Proof.
  intros Hnh Hnw. unfold JPEG_MAX_DIMENSION in *.
  assert (Bh : 0 <= h * p < 2 ^ 53).
  { split; [nia|]. pose proof (Z.div_mod (h * p) 100 ltac:(lia)).
    pose proof (Z.mod_pos_bound (h * p) 100 ltac:(lia)). lia. }
  assert (Bw : 0 <= w * p < 2 ^ 53).
  { split; [nia|]. pose proof (Z.div_mod (w * p) 100 ltac:(lia)).
    pose proof (Z.mod_pos_bound (w * p) 100 ltac:(lia)). lia. }
  unfold App.process_image.
  change ("Resized" =? "Resized")%string with true. cbv iota.
  destruct (Z.eqb_spec p 100) as [|_]; [contradiction|]. cbv [negb].
  unfold App.shape_at. rewrite Hshape. cbn [nth_error].
  step. rewrite (scaled_side_floor w p Bw). step.
  step. rewrite (scaled_side_floor h p Bh). step.
  set (h' := h * p / 100) in *. set (w' := w * p / 100) in *.
  assert (Hd : dims img = Some (h, w, 3)) by (unfold dims; now rewrite Hshape).
  unfold Cv2.resize. rewrite Hd.
  replace (Cv2.is_empty h w) with false
    by (unfold Cv2.is_empty; destruct (Z.leb_spec h 0), (Z.leb_spec w 0); try lia; reflexivity).
  replace (Cv2.is_empty h' w') with false
    by (unfold Cv2.is_empty; destruct (Z.leb_spec h' 0), (Z.leb_spec w' 0); try lia; reflexivity).
  step. unfold Cv2.like_shape. rewrite Hshape.
  pose proof (inter_area_length B HB img w' h' h w 3 Hd ltac:(lia) ltac:(lia) ltac:(lia)) as Hlen.
  destruct (jpeg_encode_accepts B HB h' w' (inter_area B img w' h') q
              ltac:(unfold JPEG_MAX_DIMENSION; lia)
              ltac:(unfold JPEG_MAX_DIMENSION; lia) Hlen) as [buf Hbuf].
  rewrite Hbuf. step.
  destruct (jpeg_decode_encode B HB _ q buf h' w' 3 Hbuf eq_refl)
    as (stored & Hdec & Hst).
  destruct (apply_flag_color stored h' w' Hst) as [d Hd'].
  exists d.
  unfold Cv2.imdecode.
  destruct buf as [|b0 buf]; [exfalso; eapply jpeg_stream_nonempty; eauto|].
  rewrite Hdec, Hd'. step.
  unfold App.cvtColor_obj, Cv2.cvtColor, dims. cbn [shape data].
  replace (Cv2.is_empty h' w') with false
    by (unfold Cv2.is_empty; destruct (Z.leb_spec h' 0), (Z.leb_spec w' 0); try lia; reflexivity).
  cbn. reflexivity.
Qed.

Lemma resized_empty :
  h * p / 100 = 0 \/ w * p / 100 = 0 ->
  App.process_image B img "Resized" p el eh cq q
  = ([st_error "Error processing image: " (CvError "resize: inv_scale_x > 0")],
     Ok (None, None)).
Proof.
  intros Hz.
  assert (Hd : dims img = Some (h, w, 3)) by (unfold dims; now rewrite Hshape).
  unfold App.process_image.
  change ("Resized" =? "Resized")%string with true. cbv iota.
  destruct (Z.eqb_spec p 100) as [|_]; [contradiction|]. cbv [negb].
  unfold App.shape_at. rewrite Hshape. cbn [nth_error].
  destruct (scaled_side_total w p) as [width Ew].
  destruct (scaled_side_total h p) as [height Eh].
  step. rewrite Ew. step. step. rewrite Eh. step.
  assert (He : Cv2.is_empty height width = true).
  { unfold Cv2.is_empty. apply orb_true_iff. destruct Hz as [Hz|Hz].
    - left. rewrite scaled_side_floor in Eh.
      + injection Eh as <-. rewrite Hz. reflexivity.
      + apply small_product; lia.
    - right. rewrite scaled_side_floor in Ew.
      + injection Ew as <-. rewrite Hz. reflexivity.
      + apply small_product; lia. }
  unfold Cv2.resize. rewrite Hd, He.
  replace (Cv2.is_empty h w) with false
    by (unfold Cv2.is_empty; destruct (Z.leb_spec h 0), (Z.leb_spec w 0); try lia; reflexivity).
  reflexivity.
Qed.

End Resize.

(* ================================================================= *)
(** ** The reference backend satisfies the laws *)

Lemma get16_put16 n hi lo :
  0 <= n < 65536 -> Reference.put16 n = [hi; lo] -> Reference.get16 hi lo = n.
Proof.
  intros Hn [= <- <-]. unfold Reference.get16.
  rewrite !byte.unsigned_of_Z. unfold byte.wrap.
  change (2 ^ 8) with 256.
  pose proof (Z.div_mod n 256 ltac:(lia)).
  pose proof (Z.mod_pos_bound n 256 ltac:(lia)).
  rewrite (Z.mod_small (n / 256)); [lia|].
  split; [apply Z.div_pos; lia | apply Z.div_lt_upper_bound; lia].
Qed.

Lemma container_read_write tag img buf h w c :
  Reference.container_write tag img = Ok buf -> dims img = Some (h, w, c) ->
  exists stored,
    Reference.container_read buf = Some stored /\
    (shape stored = [h; w] \/ shape stored = [h; w; 3]).
Proof.
  unfold Reference.container_write. intros Hw Hd. rewrite Hd in Hw.
  destruct (_ && _) eqn:G in Hw; [|discriminate].
  injection Hw as <-.
  repeat (apply andb_true_iff in G; destruct G as [G ?]).
  unfold JPEG_MAX_DIMENSION in *.
  cbn [Reference.put16 app Reference.container_read].
  rewrite (get16_put16 h _ _ ltac:(lia) eq_refl).
  rewrite (get16_put16 w _ _ ltac:(lia) eq_refl).
  rewrite byte.unsigned_of_Z. unfold byte.wrap.
  match goal with H : (_ || _) = true |- _ => apply orb_true_iff in H; destruct H as [C|C] end;
    apply Z.eqb_eq in C; subst c; cbn; eauto.
Qed.

Lemma reference_laws : BackendLaws Reference.backend.
Proof.
  constructor; cbn [pil_open cv_jpeg_encode cv_decode inter_area Reference.backend].
  - eexists. reflexivity.
  - intros h w d q Hh Hw _. unfold Reference.container_write, dims. cbn [shape].
    replace (_ && _) with true; [eauto|].
    symmetry. rewrite !andb_true_iff, !Z.ltb_lt, !Z.leb_le. cbn. lia.
  - intros img q. unfold Reference.container_write.
    destruct (dims img) as [[[h w] c]|]; [|discriminate].
    destruct (_ && _); discriminate.
  - intros img q buf h w c. apply container_read_write.
  - intros src width height h w c Hd Hc Hw Hh. unfold Reference.nearest.
    rewrite Hd. apply length_tabulate_Z; lia.
Qed.


(* ================================================================= *)
(** ** Colour conversion and the steps of the resize branch *)

Lemma is_empty_false h w : 0 < h -> 0 < w -> Cv2.is_empty h w = false.
Proof.
  intros. unfold Cv2.is_empty.
  destruct (Z.leb_spec h 0), (Z.leb_spec w 0); try lia; reflexivity.
Qed.

Lemma cvtColor_bgr2rgb_3 img h w :
  shape img = [h; w; 3] -> 0 < h -> 0 < w ->
  Cv2.cvtColor img Cv2.COLOR_BGR2RGB
  = Ok (mk_ndarray [h; w; 3] (Cv2.cvt_to3 true 3 (data img))).
Proof.
  intros Hs Hh Hw. unfold Cv2.cvtColor, dims. rewrite Hs.
  rewrite is_empty_false by assumption. reflexivity.
Qed.

Lemma apply_flag_color_shape stored out :
  Cv2.apply_flag Cv2.IMREAD_COLOR stored = Some out ->
  exists h w, shape out = [h; w; 3].
Proof.
  unfold Cv2.apply_flag.
  destruct stored as [[|h [|w [|c [|x s]]]] d]; cbn [shape data]; try discriminate.
  - intros [= <-]. cbn. eauto.
  - destruct (Z.eqb_spec c 3) as [->|_].
    + intros [= <-]. cbn. eauto.
    + destruct (c =? 4); [|discriminate]. intros [= <-]. cbn. eauto.
Qed.

Lemma imdecode_color_shape decoder buf out :
  Cv2.imdecode decoder buf Cv2.IMREAD_COLOR = Ok (Some out) ->
  exists h w, shape out = [h; w; 3].
Proof.
  unfold Cv2.imdecode. destruct buf as [|b buf]; [discriminate|].
  destruct (decoder (b :: buf)) as [stored|]; [|discriminate].
  intros [= H]. eapply apply_flag_color_shape; eauto.
Qed.

Lemma cvtColor_bgr2rgb_3_inv img h w display :
  shape img = [h; w; 3] ->
  Cv2.cvtColor img Cv2.COLOR_BGR2RGB = Ok display ->
  display = mk_ndarray [h; w; 3] (Cv2.cvt_to3 true 3 (data img)).
Proof.
  intros Hs. unfold Cv2.cvtColor, dims. rewrite Hs.
  destruct (Cv2.is_empty h w); [discriminate|]. cbn. now intros [= <-].
Qed.

(** The steps behind a bitmap returned by the resize branch. *)
Lemma process_image_resized_inv B img p el eh cq q evs out disp :
  p <> 100 ->
  App.process_image B img "Resized" p el eh cq q = (evs, Ok (Some out, disp)) ->
  exists s1 s0 width height resampled encoded display,
    App.shape_at img 1 = Ok s1 /\ App.scaled_side s1 p = Ok width /\
    App.shape_at img 0 = Ok s0 /\ App.scaled_side s0 p = Ok height /\
    Cv2.resize (inter_area B) img (width, height) = Ok resampled /\
    cv_jpeg_encode B resampled q = Ok encoded /\
    Cv2.imdecode (cv_decode B) encoded Cv2.IMREAD_COLOR = Ok (Some out) /\
    Cv2.cvtColor out Cv2.COLOR_BGR2RGB = Ok display /\
    disp = Some display /\ evs = [].
Proof.
  intros Hne. unfold App.process_image.
  change ("Resized" =? "Resized")%string with true. cbv iota.
  destruct (Z.eqb_spec p 100) as [|_]; [contradiction|]. cbv [negb].
  destruct (App.shape_at img 1) as [s1|e] eqn:E1; [step | discriminate].
  destruct (App.scaled_side s1 p) as [width|e] eqn:E2; [step | discriminate].
  destruct (App.shape_at img 0) as [s0|e] eqn:E3; [step | discriminate].
  destruct (App.scaled_side s0 p) as [height|e] eqn:E4; [step | discriminate].
  destruct (Cv2.resize _ img _) as [resampled|e] eqn:E5; [step | discriminate].
  destruct (cv_jpeg_encode B resampled q) as [encoded|e] eqn:E6; [step | discriminate].
  destruct (Cv2.imdecode _ encoded _) as [[decoded|]|e] eqn:D; [step | discriminate | discriminate].
  cbn [App.cvtColor_obj].
  destruct (Cv2.cvtColor decoded _) as [display|e] eqn:C; [step | discriminate].
  intros [= <- <- <-].
  exists s1, s0, width, height, resampled, encoded, display. repeat split; auto.
Qed.

(* ================================================================= *)
(** ** Shapes through resize and the encoders *)

Lemma dims_shape_at img h w c :
  dims img = Some (h, w, c) -> App.shape_at img 0 = Ok h /\ App.shape_at img 1 = Ok w.
Proof.
  unfold dims, App.shape_at.
  destruct (shape img) as [|a [|b [|k [|x s]]]]; try discriminate; intros [= -> -> <-]; auto.
Qed.

Lemma resize_inv kernel img width height resampled :
  Cv2.resize kernel img (width, height) = Ok resampled ->
  0 < width /\ 0 < height /\
  (exists c, dims resampled = Some (height, width, c)) /\
  data resampled = kernel img width height.
Proof.
  unfold Cv2.resize.
  destruct (dims img) as [[[h w] c]|] eqn:D; [|discriminate].
  destruct (Cv2.is_empty h w); [discriminate|].
  destruct (Cv2.is_empty height width) eqn:E; [discriminate|].
  intros [= <-]. unfold Cv2.is_empty in E. apply orb_false_iff in E.
  destruct E as [E1%Z.leb_gt E2%Z.leb_gt].
  repeat split; auto.
  unfold Cv2.like_shape, dims. cbn [shape].
  destruct (shape img) as [|a [|b [|k [|x s]]]]; eauto.
Qed.

Lemma save_processed_3 B out cq q h w :
  shape out = [h; w; 3] ->
  App.save_processed B out cq q
  = bind (Cv2.cvtColor out Cv2.COLOR_BGR2RGB) (fun rgb =>
    bind (Pil.fromarray rgb) (fun im =>
    bind (jpeg_write B im q true) (fun buf => Ok (JPEG, buf)))).
Proof. intros Hs. unfold App.save_processed. rewrite Hs. reflexivity. Qed.

Lemma save_processed_2 B out cq q h w :
  shape out = [h; w] ->
  App.save_processed B out cq q
  = bind (png_write B (mk_pil L (w, h) (data out)) true (-1)) (fun buf => Ok (PNG, buf)).
Proof.
  intros Hs. unfold App.save_processed, Pil.fromarray. rewrite Hs. reflexivity.
Qed.

(* ================================================================= *)
(** ** Grayscale conversion *)

Lemma bgr2gray_px_gray v : Cv2.bgr2gray_px v v v = v.
Proof.
  unfold Cv2.bgr2gray_px, Cv2.BY15, Cv2.GY15, Cv2.RY15, Cv2.gray_shift.
  rewrite Z.shiftr_div_pow2 by lia. change (Z.shiftl 1 (15 - 1)) with 16384.
  change (2 ^ 15) with 32768.
  symmetry. apply Z.div_unique with (r := 16384); lia.
Qed.

Lemma spec_luma_gray v : 0 <= v <= 255 -> spec_luma v v v = v.
Proof.
  intros H. unfold spec_luma.
  replace ((299 * v + 587 * v + 114 * v + 500) / 1000) with v; [lia|].
  apply Z.div_unique with (r := 500); lia.
Qed.

Lemma cvtColor_gray_3 img h w :
  shape img = [h; w; 3] -> 0 < h -> 0 < w ->
  Cv2.cvtColor img Cv2.COLOR_BGR2GRAY
  = Ok (mk_ndarray [h; w] (Cv2.cvt_gray 3 (data img))).
Proof.
  intros Hs Hh Hw. unfold Cv2.cvtColor, dims. rewrite Hs.
  rewrite is_empty_false by assumption. reflexivity.
Qed.

Lemma cvt_gray_solid b g r n :
  Cv2.cvt_gray 3 (concat (repeat [b; g; r] n)) = repeat (Cv2.bgr2gray_px b g r) n.
Proof.
  unfold Cv2.cvt_gray. cbn [Z.eqb Pos.eqb].
  now rewrite map_px3_repeat, concat_repeat_singleton.
Qed.


Lemma bgr2gray_px_range b g r :
  0 <= b <= 255 -> 0 <= g <= 255 -> 0 <= r <= 255 -> 0 <= Cv2.bgr2gray_px b g r <= 255.
Proof.
  intros Hb Hg Hr.
  unfold Cv2.bgr2gray_px, Cv2.BY15, Cv2.GY15, Cv2.RY15, Cv2.gray_shift.
  rewrite Z.shiftr_div_pow2 by lia. change (Z.shiftl 1 (15 - 1)) with 16384.
  change (2 ^ 15) with 32768. split.
  - apply Z.div_pos; lia.
  - apply Z.lt_succ_r, Z.div_lt_upper_bound; lia.
Qed.

Lemma Forall_cvt_gray_3 : forall n d,
  (length d <= n)%nat ->
  Forall (fun v => 0 <= v <= 255) d ->
  Forall (fun v => 0 <= v <= 255) (Cv2.cvt_gray 3 d).
Proof.
  unfold Cv2.cvt_gray. cbn [Z.eqb Pos.eqb].
  induction n as [|n IH]; intros d Hn Hd.
  - destruct d; [constructor | cbn in Hn; lia].
  - destruct d as [|b [|g [|r d]]]; try constructor.
    + inversion Hd as [|? ? Hb Hd1]; subst. inversion Hd1 as [|? ? Hg Hd2]; subst.
      inversion Hd2 as [|? ? Hr Hd3]; subst. now apply bgr2gray_px_range.
    + apply IH; [cbn [length] in Hn; lia|].
      inversion Hd as [|? ? _ Hd1]; subst. inversion Hd1 as [|? ? _ Hd2]; subst.
      now inversion Hd2.
Qed.

Lemma process_image_grayscale B img h w p el eh cq q :
  shape img = [h; w; 3] -> 0 < h -> 0 < w ->
  App.process_image B img "Grayscale" p el eh cq q
  = ([], Ok (Some (mk_ndarray [h; w] (Cv2.cvt_gray 3 (data img))),
             Some (mk_ndarray [h; w] (Cv2.cvt_gray 3 (data img))))).
Proof.
  intros Hs Hh Hw. unfold App.process_image.
  change ("Grayscale" =? "Resized")%string with false.
  change ("Grayscale" =? "Grayscale")%string with true. cbv iota.
  rewrite (cvtColor_gray_3 img h w Hs Hh Hw). step. reflexivity.
Qed.

(* ================================================================= *)
(** ** The download section and the conversion to OpenCV *)

Lemma cvt_to3_swap_pixel b g r rest :
  Cv2.cvt_to3 true 3 (b :: g :: r :: rest) = r :: g :: b :: Cv2.cvt_to3 true 3 rest.
Proof. reflexivity. Qed.

Lemma io_bind_emit {B : Type} (e : st_event) (k : unit -> io B) :
  io_bind (emit e) k = (e :: fst (k tt), snd (k tt)).
Proof. unfold io_bind, emit. now destruct (k tt). Qed.

Lemma show_processed_events B o img disp ui fmt buf :
  App.save_processed B img (App.compression_quality ui) (App.jpeg_quality ui) = Ok (fmt, buf) ->
  PyFloat.is_zero o = false ->
  exists psize percent,
    App.get_file_size buf = Ok psize /\
    App.size_reduction o psize = Ok percent /\
    App.show_processed B o img disp ui
    = ([st_subheader (App.transform_option ui ++ " Image");
        st_image disp;
        st_write_processed_size psize;
        st_write_size_reduction percent;
        st_download_button "Download processed image" buf
          ("processed_" ++ App.lower (App.transform_option ui) ++ ".jpg") "image/jpeg"],
       Ok tt).
Proof.
  intros Hs Hz.
  destruct (size_reduction_returns o (PyFloat.round_ratio (Z.of_nat (length buf)) (1024 * 1024)) Hz)
    as [percent Hr].
  eexists _, percent. split; [apply get_file_size_ok|]. split; [exact Hr|].
  unfold App.show_processed. rewrite Hs.
  rewrite !io_bind_emit. step. cbn [snd].
  rewrite get_file_size_ok. step. rewrite io_bind_emit. rewrite Hr. step.
  rewrite io_bind_emit. reflexivity.
Qed.

Lemma show_processed_zero_original B o img disp ui saved :
  App.save_processed B img (App.compression_quality ui) (App.jpeg_quality ui) = Ok saved ->
  PyFloat.is_zero o = true ->
  snd (App.show_processed B o img disp ui) = Raise ZeroDivisionError.
Proof.
  intros Hs Hz. unfold App.show_processed. rewrite Hs.
  rewrite !io_bind_emit. cbn [snd]. step.
  rewrite get_file_size_ok. step. rewrite io_bind_emit. cbn [snd].
  now rewrite size_reduction_raises.
Qed.

Lemma convert_to_cv2_eq m w h px :
  App.convert_to_cv2 (mk_pil m (w, h) px)
  = if negb (Z.of_nat (length px) =? w * h * bands m) then
      ([st_error "Error converting image: " (PilError "image file is truncated")], Ok None)
    else if Cv2.is_empty h w then
      ([st_error "Error converting image: " (CvError "cvtColor: !_src.empty()")], Ok None)
    else if bands m =? 1 then
      ([], Ok (Some (mk_ndarray [h; w; 3] (Cv2.cvt_gray2bgr px))))
    else if bands m =? 3 then
      ([], Ok (Some (mk_ndarray [h; w; 3] (Cv2.cvt_to3 true 3 px))))
    else if bands m =? 4 then
      ([], Ok (Some (mk_ndarray [h; w; 3] (Cv2.cvt_to3 true 3 (Cv2.cvt_to3 false 4 px)))))
    else
      ([st_error "Error converting image: "
          (CvError "cvtColor: invalid number of channels in input image")], Ok None).
Proof.
  unfold App.convert_to_cv2, np_array. cbn [mode size pixels].
  destruct (negb (Z.of_nat (length px) =? w * h * bands m)); [reflexivity|].
  destruct (Cv2.is_empty h w) eqn:E;
    destruct m; cbn [bands Z.eqb Pos.eqb]; rewrite io_bind_lift_ok;
    cbn [shape length Nat.eqb andb nth Z.eqb Pos.eqb];
    try rewrite io_bind_ret; unfold Cv2.cvtColor, dims; cbn [shape data];
    rewrite ?E; cbn; rewrite ?E; reflexivity.
Qed.

(** The same, for an image whose samples fill it and which is not empty. *)
Lemma convert_to_cv2_complete m w h px :
  0 < w -> 0 < h -> Z.of_nat (length px) = w * h * bands m ->
  App.convert_to_cv2 (mk_pil m (w, h) px)
  = if bands m =? 1 then
      ([], Ok (Some (mk_ndarray [h; w; 3] (Cv2.cvt_gray2bgr px))))
    else if bands m =? 3 then
      ([], Ok (Some (mk_ndarray [h; w; 3] (Cv2.cvt_to3 true 3 px))))
    else if bands m =? 4 then
      ([], Ok (Some (mk_ndarray [h; w; 3] (Cv2.cvt_to3 true 3 (Cv2.cvt_to3 false 4 px)))))
    else
      ([st_error "Error converting image: "
          (CvError "cvtColor: invalid number of channels in input image")], Ok None).
Proof.
  intros Hw Hh Hn. rewrite convert_to_cv2_eq, is_empty_false by assumption.
  now rewrite (proj2 (Z.eqb_eq _ _) Hn).
Qed.

(** What [convert_to_cv2] returns is a 3-channel bitmap of positive size. *)
Lemma convert_to_cv2_canonical pil_img evs out :
  App.convert_to_cv2 pil_img = (evs, Ok (Some out)) ->
  shape out = [snd (size pil_img); fst (size pil_img); 3] /\
  0 < snd (size pil_img) /\ 0 < fst (size pil_img) /\
  (bands (mode pil_img) = 1 \/ bands (mode pil_img) = 3 \/ bands (mode pil_img) = 4).
Proof.
  destruct pil_img as [m [w h] px]. cbn [mode size fst snd].
  rewrite convert_to_cv2_eq.
  destruct (negb _); [discriminate|].
  destruct (Cv2.is_empty h w) eqn:E; [discriminate|].
  unfold Cv2.is_empty in E. apply orb_false_iff in E.
  destruct E as [Eh%Z.leb_gt Ew%Z.leb_gt].
  destruct (Z.eqb_spec (bands m) 1) as [E1|_].
  { intros [= <- <-]. repeat split; auto. }
  destruct (Z.eqb_spec (bands m) 3) as [E3|_].
  { intros [= <- <-]. repeat split; auto. }
  destruct (Z.eqb_spec (bands m) 4) as [E4|_]; [|discriminate].
  intros [= <- <-]. repeat split; auto.
Qed.

Lemma main_empty_upload B ui :
  BackendLaws B ->
  exists e,
    App.main B (Some []) ui
    = ([st_sidebar_write_original_size PyFloat.zero;
        st_error "Error loading image: " e], Ok tt).
Proof.
  intros HB. destruct (pil_open_empty B HB) as [e He]. exists e.
  unfold App.main. cbn [length Z.of_nat].
  change (PyFloat.truediv_int 0 (1024 * 1024)) with (Ok PyFloat.zero).
  step. rewrite io_bind_emit.
  unfold App.load_image. rewrite He. reflexivity.
Qed.

(* ================================================================= *)
(** ** Blur and edges *)








Section UniformGradient.

Variables (h w v : Z).
Hypotheses (Hh : 0 < h) (Hw : 0 < w).

Let d := repeat v (Z.to_nat (h * w)).





End UniformGradient.






(** *** Hysteresis reaches its fixed point *)

















(** *** The smoothing and the edge map, sample by sample *)










Section Hysteresis.

Variables (h w : Z) (strong weak : Z -> Z -> bool).
Hypotheses (Hh : 0 < h) (Hw : 0 < w).
Hypothesis weak_in_image : forall y x, weak y x = true -> Cv2.in_image h w y x = true.
Hypothesis strong_weak : forall y x, strong y x = true -> weak y x = true.






End Hysteresis.





(* ================================================================= *)
(** ** Loading and alpha *)

Lemma drop_alpha_then_swap : forall n px, (length px <= n)%nat ->
  Cv2.cvt_to3 true 3 (Cv2.cvt_to3 false 4 px)
  = Cv2.map_px4 (fun r g b _ => [b; g; r]) px.
Proof.
  unfold Cv2.cvt_to3. cbn [Z.eqb Pos.eqb].
  induction n as [|n IH]; intros px Hn.
  - destruct px; [reflexivity | cbn in Hn; lia].
  - destruct px as [|r [|g [|b [|a px]]]]; try reflexivity.
    cbn [Cv2.map_px4 Cv2.map_px3 app]. f_equal. f_equal. f_equal.
    apply IH. cbn [length] in Hn. lia.
Qed.

Lemma io_bind_nil_ok {A C : Type} (a : A) (k : A -> io C) :
  io_bind ([], Ok a) k = k a.
Proof. apply io_bind_lift_ok. Qed.

Lemma load_image_ok B file img :
  pil_open B file = Ok img -> App.load_image B file = ([], Ok (Some img)).
Proof. intros H. unfold App.load_image. now rewrite H. Qed.

Lemma load_image_raise B file e :
  pil_open B file = Raise e ->
  App.load_image B file = ([st_error "Error loading image: " e], Ok None).
Proof. intros H. unfold App.load_image. now rewrite H. Qed.

(* ================================================================= *)
(** ** Outcomes of the helpers and runs of [main] *)

Lemma quiet_paired_bind {A : Type} (r : result A)
    (k : A -> io (option ndarray * option ndarray)) :
  (forall a, r = Ok a -> quiet_paired (k a)) ->
  quiet_paired (io_bind (lift r) k).
Proof.
  intros H. destruct r as [a|e].
  - rewrite io_bind_lift_ok. now apply H.
  - split; [reflexivity | discriminate].
Qed.

Lemma quiet_paired_ret v : paired v -> quiet_paired (ret v).
Proof. intros H. split; [reflexivity|]. now intros v' [= <-]. Qed.

Lemma try_except_quiet_paired msg body :
  quiet_paired body ->
  let m := try_except body (fun e => emit (st_error msg e) ;;; ret (None, None)) in
  (exists a d, m = ([], Ok (Some a, Some d))) \/
  m = ([], Ok (None, None)) \/
  (exists e, m = ([st_error msg e], Ok (None, None))).
Proof.
  destruct body as [ev [v|e]]; intros [Hq Hv]; cbn in Hq; subst ev; cbn.
  - destruct (Hv v eq_refl) as [(a & d & ->)| ->]; eauto.
  - eauto.
Qed.

(** [process_image] lets no exception out: it gives a bitmap together with
    the image to display and shows nothing, or it gives neither, after
    showing at most the one error it caught. *)
Lemma process_image_outcomes B img t p el eh cq q :
  (exists a d, App.process_image B img t p el eh cq q = ([], Ok (Some a, Some d))) \/
  App.process_image B img t p el eh cq q = ([], Ok (None, None)) \/
  (exists e, App.process_image B img t p el eh cq q
             = ([st_error "Error processing image: " e], Ok (None, None))).
Proof.
  unfold App.process_image. apply try_except_quiet_paired.
  destruct (t =? "Resized")%string; [destruct (negb (p =? 100))|].
  - repeat (apply quiet_paired_bind; intros ? ?).
    apply quiet_paired_ret. left.
    match goal with H : App.cvtColor_obj ?o _ = Ok _ |- _ => destruct o; [|discriminate] end.
    eauto.
  - apply quiet_paired_bind; intros ? ?. apply quiet_paired_ret. left. eauto.
  - destruct (t =? "Grayscale")%string.
    + apply quiet_paired_bind; intros ? ?. apply quiet_paired_ret. left. eauto.
    + destruct (t =? "Edge Detection")%string.
      * repeat (apply quiet_paired_bind; intros ? ?). apply quiet_paired_ret. left. eauto.
      * apply quiet_paired_ret. now right.
Qed.

Lemma cvtColor_gray_shape img g :
  Cv2.cvtColor img Cv2.COLOR_BGR2GRAY = Ok g -> exists h w, shape g = [h; w].
Proof.
  unfold Cv2.cvtColor. destruct (dims img) as [[[h w] c]|]; [|discriminate].
  destruct (Cv2.is_empty h w); [discriminate|].
  destruct ((c =? 3) || (c =? 4)); [|discriminate]. intros [= <-]. cbn. eauto.
Qed.

Lemma Canny_shape img t1 t2 edges :
  Cv2.Canny img t1 t2 = Ok edges -> exists h w, shape edges = [h; w].
Proof.
  unfold Cv2.Canny. destruct (dims img) as [[[h w] c]|]; [|discriminate].
  destruct (Cv2.is_empty h w); [discriminate|]. intros [= <-]. cbn. eauto.
Qed.

Lemma cvtColor_bgr2rgb_nonempty img h w display :
  shape img = [h; w; 3] -> Cv2.cvtColor img Cv2.COLOR_BGR2RGB = Ok display ->
  0 < h /\ 0 < w.
Proof.
  intros Hs. unfold Cv2.cvtColor, dims. rewrite Hs.
  destruct (Cv2.is_empty h w) eqn:E; [discriminate|]. intros _.
  unfold Cv2.is_empty in E. apply orb_false_iff in E.
  destruct E as [Eh%Z.leb_gt Ew%Z.leb_gt]. auto.
Qed.

Lemma process_image_resized_100 B img h w el eh cq q :
  shape img = [h; w; 3] -> 0 < h -> 0 < w ->
  App.process_image B img "Resized" 100 el eh cq q
  = ([], Ok (Some img, Some (mk_ndarray [h; w; 3] (Cv2.cvt_to3 true 3 (data img))))).
Proof.
  intros Hs Hh Hw. unfold App.process_image.
  change ("Resized" =? "Resized")%string with true. cbv iota.
  change (negb (100 =? 100)) with false. cbv iota.
  rewrite (cvtColor_bgr2rgb_3 img h w Hs Hh Hw). step. reflexivity.
Qed.

(** The bitmap [process_image] returns: 3 channels and not empty after a
    resize, 2-D after the grayscale and the edge transform. *)
Lemma process_image_output_shape B img h w t p el eh cq q evs a d :
  shape img = [h; w; 3] -> 0 < h -> 0 < w ->
  App.process_image B img t p el eh cq q = (evs, Ok (Some a, d)) ->
  (t = "Resized"%string /\ exists h' w', shape a = [h'; w'; 3] /\ 0 < h' /\ 0 < w') \/
  ((t = "Grayscale"%string \/ t = "Edge Detection"%string) /\
   exists h' w', shape a = [h'; w']).
Proof.
  intros Hs Hh Hw H.
  destruct (String.eqb_spec t "Resized") as [->|N1].
  { left. split; [reflexivity|].
    destruct (Z.eq_dec p 100) as [->|Hne].
    - rewrite (process_image_resized_100 B img h w el eh cq q Hs Hh Hw) in H.
      injection H as _ <- _. eauto.
    - destruct (process_image_resized_inv _ _ _ _ _ _ _ _ _ _ Hne H)
        as (s1 & s0 & width & height & resampled & encoded & display
            & _ & _ & _ & _ & _ & _ & D & C & _).
      destruct (imdecode_color_shape _ _ _ D) as (h' & w' & Hs').
      exists h', w'. split; [exact Hs'|].
      eapply cvtColor_bgr2rgb_nonempty; eauto. }
  right. revert H. unfold App.process_image.
  destruct (String.eqb_spec t "Resized") as [|_]; [contradiction|].
  destruct (String.eqb_spec t "Grayscale") as [->|N2].
  { destruct (Cv2.cvtColor img _) as [g|e] eqn:G; [|discriminate].
    rewrite io_bind_lift_ok. intros [= <- <- <-]. split; [auto|].
    eapply cvtColor_gray_shape; eauto. }
  destruct (String.eqb_spec t "Edge Detection") as [->|N3]; [|discriminate].
  destruct (Cv2.cvtColor img _) as [g|e]; [|discriminate]. rewrite io_bind_lift_ok.
  destruct (Cv2.GaussianBlur g _ _) as [bl|e]; [|discriminate]. rewrite io_bind_lift_ok.
  destruct (Cv2.Canny bl el eh) as [edges|e] eqn:C; [|discriminate].
  rewrite io_bind_lift_ok. intros [= <- <- <-]. split; [auto|].
  eapply Canny_shape; eauto.
Qed.

(** [save_processed] on the bitmaps [process_image] returns: one call of a
    Pillow writer. *)
Lemma save_processed_of_output B a cq q :
  (exists h w, shape a = [h; w; 3] /\ 0 < h /\ 0 < w) \/ (exists h w, shape a = [h; w]) ->
  (exists im,
     App.save_processed B a cq q
     = bind (jpeg_write B im q true) (fun buf => Ok (JPEG, buf))) \/
  (exists im,
     App.save_processed B a cq q
     = bind (png_write B im true (-1)) (fun buf => Ok (PNG, buf))).
Proof.
  intros [(h & w & Hs & Hh & Hw) | (h & w & Hs)].
  - left. eexists. rewrite (save_processed_3 B a cq q h w Hs).
    rewrite (cvtColor_bgr2rgb_3 a h w Hs Hh Hw). reflexivity.
  - right. eexists. apply (save_processed_2 B a cq q h w Hs).
Qed.

Lemma show_processed_raise B o a d ui e :
  snd (App.show_processed B o a d ui) = Raise e ->
  App.save_processed B a (App.compression_quality ui) (App.jpeg_quality ui) = Raise e \/
  (PyFloat.is_zero o = true /\ e = ZeroDivisionError).
Proof.
  destruct (App.save_processed B a _ _) as [[fmt buf]|e'] eqn:S.
  - destruct (PyFloat.is_zero o) eqn:Z0.
    + rewrite (show_processed_zero_original B o a d ui _ S Z0). intros [= <-]. auto.
    + destruct (show_processed_events B o a d ui fmt buf S Z0) as (ps & pc & _ & _ & E).
      rewrite E. discriminate.
  - unfold App.show_processed. rewrite S, !io_bind_emit. cbn. intros [= <-]. auto.
Qed.

Lemma convert_to_cv2_outcomes pil_img :
  (exists out, App.convert_to_cv2 pil_img = ([], Ok (Some out))) \/
  (exists e, App.convert_to_cv2 pil_img = ([st_error "Error converting image: " e], Ok None)).
Proof.
  destruct pil_img as [m [w h] px]. rewrite convert_to_cv2_eq.
  destruct (negb _); [eauto|].
  destruct (Cv2.is_empty h w); [eauto|].
  destruct (bands m =? 1); [eauto|].
  destruct (bands m =? 3); [eauto|]. destruct (bands m =? 4); eauto.
Qed.

Lemma load_image_outcomes B (file : bytes) :
  (exists im, pil_open B file = Ok im /\ App.load_image B file = ([], Ok (Some im))) \/
  (exists e, pil_open B file = Raise e /\
             App.load_image B file = ([st_error "Error loading image: " e], Ok None)).
Proof.
  destruct (pil_open B file) as [im|e] eqn:E.
  - left. exists im. split; [reflexivity|]. now apply load_image_ok.
  - right. exists e. split; [reflexivity|]. now apply load_image_raise.
Qed.

(** One run of [main] on an upload: it stops after an error that was shown,
    having reported no size reduction, or it reaches the code that shows the
    processed image. *)
Lemma main_run B (file : bytes) ui o :
  o = PyFloat.round_ratio (Z.of_nat (length file)) (1024 * 1024) ->
  (exists evs, App.main B (Some file) ui = (evs, Ok tt) /\
               forall r, ~ In (st_write_size_reduction r) evs) \/
  (exists image cv a d,
     pil_open B file = Ok image /\
     App.convert_to_cv2 image = ([], Ok (Some cv)) /\
     App.process_image B cv (App.transform_option ui) (App.resize_percent ui)
       (App.edge_low ui) (App.edge_high ui) (App.compression_quality ui)
       (App.jpeg_quality ui) = ([], Ok (Some a, Some d)) /\
     App.main B (Some file) ui
     = ([st_sidebar_write_original_size o; st_subheader "Original Image";
         st_image_pil image; st_subheader "Transformation Controls";
         st_subheader "Compression Controls"]
        ++ fst (App.show_processed B o a (Some d) ui),
        snd (App.show_processed B o a (Some d) ui))).
Proof.
  intros ->. unfold App.main.
  set (o := PyFloat.round_ratio (Z.of_nat (length file)) (1024 * 1024)).
  change (PyFloat.truediv_int (Z.of_nat (length file)) (1024 * 1024)) with (Ok o).
  rewrite io_bind_lift_ok, io_bind_emit.
  assert (Stop : forall evs : list st_event,
            (forall r, ~ In (st_write_size_reduction r) evs) ->
            exists evs', (evs, @Ok unit tt) = (evs', Ok tt) /\
                         forall r, ~ In (st_write_size_reduction r) evs').
  { intros evs H. exists evs. auto. }
  destruct (load_image_outcomes B file) as [(im & Ho & ->) | (e & _ & ->)];
    [|left; cbn; apply Stop; intros r Hin; cbn in Hin; intuition discriminate].
  rewrite io_bind_nil_ok.
  destruct (convert_to_cv2_outcomes im) as [(cv & Hc) | (e & Hc)]; rewrite Hc;
    [|left; cbn; apply Stop; intros r Hin; cbn in Hin; intuition discriminate].
  rewrite io_bind_nil_ok, !io_bind_emit.
  destruct (process_image_outcomes B cv (App.transform_option ui) (App.resize_percent ui)
              (App.edge_low ui) (App.edge_high ui) (App.compression_quality ui)
              (App.jpeg_quality ui)) as [(a & d & Hp) | [Hp | (e & Hp)]]; rewrite Hp.
  - right. exists im, cv, a, d. repeat split; auto.
    rewrite io_bind_nil_ok. cbn [fst snd].
    destruct (App.show_processed B o a (Some d) ui) as [evs r]. reflexivity.
  - left. cbn. apply Stop. intros r Hin. cbn in Hin. intuition discriminate.
  - left. cbn. apply Stop. intros r Hin. cbn in Hin. intuition discriminate.
Qed.

(* ================================================================= *)
(** ** What the widgets reach *)

Lemma io_bind_ext_on {A C : Type} (m : io A) (k k' : A -> io C) :
  (forall a, snd m = Ok a -> k a = k' a) -> io_bind m k = io_bind m k'.
Proof.
  intros H. destruct m as [ev [a|e]]; [|reflexivity].
  unfold io_bind. now rewrite (H a eq_refl).
Qed.

Lemma save_processed_level_unread B a cq cq' q :
  App.save_processed B a cq q = App.save_processed B a cq' q.
Proof. unfold App.save_processed. destruct (_ =? _)%nat; reflexivity. Qed.

Lemma save_processed_plane_quality_unread B a h w cq cq' q q' :
  shape a = [h; w] -> App.save_processed B a cq q = App.save_processed B a cq' q'.
Proof. intros Hs. now rewrite !(save_processed_2 B a _ _ h w Hs). Qed.

(** What [show_processed] shows depends on the widgets through the transform
    name and the result of [save_processed] only. *)
Lemma show_processed_ext B o a d ui ui' :
  App.transform_option ui = App.transform_option ui' ->
  App.save_processed B a (App.compression_quality ui) (App.jpeg_quality ui)
  = App.save_processed B a (App.compression_quality ui') (App.jpeg_quality ui') ->
  App.show_processed B o a d ui = App.show_processed B o a d ui'.
Proof. intros Ht Hs. unfold App.show_processed. now rewrite Ht, Hs. Qed.

(** Two runs of [main] on the same upload agree when the transform is the
    same, [process_image] gives the same result and, on the bitmap it gives,
    [save_processed] does too. *)
Lemma main_ext B upload ui ui' :
  App.transform_option ui = App.transform_option ui' ->
  (forall cv,
     App.process_image B cv (App.transform_option ui) (App.resize_percent ui)
       (App.edge_low ui) (App.edge_high ui) (App.compression_quality ui)
       (App.jpeg_quality ui)
     = App.process_image B cv (App.transform_option ui') (App.resize_percent ui')
         (App.edge_low ui') (App.edge_high ui') (App.compression_quality ui')
         (App.jpeg_quality ui')) ->
  (forall image evc cv evs a d,
     App.convert_to_cv2 image = (evc, Ok (Some cv)) ->
     App.process_image B cv (App.transform_option ui) (App.resize_percent ui)
       (App.edge_low ui) (App.edge_high ui) (App.compression_quality ui)
       (App.jpeg_quality ui) = (evs, Ok (Some a, d)) ->
     App.save_processed B a (App.compression_quality ui) (App.jpeg_quality ui)
     = App.save_processed B a (App.compression_quality ui') (App.jpeg_quality ui')) ->
  App.main B upload ui = App.main B upload ui'.
Proof.
  intros Ht Hp Hs. destruct upload as [file|]; [|reflexivity].
  unfold App.main.
  apply io_bind_ext_on. intros o _.
  apply io_bind_ext_on. intros _ _.
  apply io_bind_ext_on. intros [image|] _; [|reflexivity].
  apply io_bind_ext_on. intros [cv|] Hc; [|reflexivity].
  do 4 (apply io_bind_ext_on; intros _ _).
  rewrite <- Hp.
  apply io_bind_ext_on. intros [[a|] d] Ho; [|reflexivity]. cbn [fst snd].
  apply show_processed_ext; [exact Ht|].
  destruct (App.convert_to_cv2 image) as [evc r] eqn:Ec. cbn [snd] in Hc. subst r.
  destruct (App.process_image B cv _ _ _ _ _ _) as [evs r] eqn:Ep.
  cbn [snd] in Ho. subst r. eapply Hs; eauto.
Qed.

Lemma plane_output_save B image evc cv t p el eh cq q evs a d cq' q' :
  t = "Grayscale"%string \/ t = "Edge Detection"%string ->
  App.convert_to_cv2 image = (evc, Ok (Some cv)) ->
  App.process_image B cv t p el eh cq q = (evs, Ok (Some a, d)) ->
  App.save_processed B a cq q = App.save_processed B a cq' q'.
Proof.
  intros Ht Hc Hp.
  destruct (convert_to_cv2_canonical image evc cv Hc) as (Hs & Hh & Hw & _).
  destruct (process_image_output_shape B cv _ _ _ _ _ _ _ _ _ _ _ Hs Hh Hw Hp)
    as [[-> _] | [_ (h' & w' & S)]].
  - destruct Ht; discriminate.
  - now apply (save_processed_plane_quality_unread B a h' w').
Qed.

Lemma Canny_thresholds_commute img t1 t2 : Cv2.Canny img t1 t2 = Cv2.Canny img t2 t1.
Proof. unfold Cv2.Canny. now rewrite (Z.min_comm t1 t2), (Z.max_comm t1 t2). Qed.

(* ================================================================= *)
(** ** Channel order *)

Lemma swap_twice : forall n d,
  length d = (3 * n)%nat -> Cv2.cvt_to3 true 3 (Cv2.cvt_to3 true 3 d) = d.
Proof.
  unfold Cv2.cvt_to3. cbn [Z.eqb Pos.eqb].
  induction n as [|n IH]; intros d H.
  - destruct d; [reflexivity | discriminate].
  - destruct d as [|a [|b [|c d]]]; cbn [length] in H; try lia.
    cbn [Cv2.map_px3 app]. do 3 f_equal. apply IH. lia.
Qed.

Lemma gray_after_swap : forall n d, (length d <= n)%nat ->
  Cv2.cvt_gray 3 (Cv2.cvt_to3 true 3 d)
  = Cv2.map_px3 (fun r g b => [Cv2.bgr2gray_px b g r]) d.
Proof.
  unfold Cv2.cvt_gray, Cv2.cvt_to3. cbn [Z.eqb Pos.eqb].
  induction n as [|n IH]; intros d H.
  - destruct d; [reflexivity | cbn in H; lia].
  - destruct d as [|a [|b [|c d]]]; try reflexivity.
    cbn [Cv2.map_px3 app]. f_equal. apply IH. cbn [length] in H. lia.
Qed.

(* ================================================================= *)
(** ** Exact file sizes *)

Lemma round_ratio_sgn num den :
  0 < den -> Z.sgn (PyFloat.mant (PyFloat.round_ratio num den)) = Z.sgn num.
Proof.
  intros Hd. unfold PyFloat.round_ratio.
  destruct (Z.compare_spec num 0) as [C|C|C].
  - subst. reflexivity.
  - pose proof (round_pos_mant_pos (- num) den ltac:(lia) Hd). cbn [PyFloat.mant]. lia.
  - pose proof (round_pos_mant_pos num den C Hd). lia.
Qed.

Lemma to_ratio_sgn x n d :
  PyFloat.to_ratio x = (n, d) -> 0 < d /\ Z.sgn n = Z.sgn (PyFloat.mant x).
Proof.
  unfold PyFloat.to_ratio. destruct (Z.leb_spec 0 (PyFloat.expo x)) as [He|He]; intros [= <- <-].
  - split; [lia|]. rewrite Z.sgn_mul.
    pose proof (Z.pow_pos_nonneg 2 (PyFloat.expo x) ltac:(lia) He).
    rewrite (Z.sgn_pos (2 ^ PyFloat.expo x)) by lia. lia.
  - split; [|reflexivity]. apply Z.pow_pos_nonneg; lia.
Qed.

Lemma round_pos_exact n :
  0 < n < 2 ^ 53 ->
  PyFloat.round_pos n (1024 * 1024)
  = PyFloat.mk (n * 2 ^ (52 - Z.log2 n)) (Z.log2 n - 72).
Proof.
  intros [Hn Hu].
  destruct (Z.log2_spec n Hn) as [Ll Lu].
  assert (HL : 0 <= Z.log2 n <= 52).
  { split; [apply Z.log2_nonneg|].
    apply Z.lt_succ_r. apply (Z.pow_lt_mono_r_iff 2); lia. }
  set (L := Z.log2 n) in *.
  change (1024 * 1024) with (2 ^ 20).
  assert (Hs : PyFloat.scaled n (2 ^ 20) (L - 72) = (n * 2 ^ (72 - L), 2 ^ 20)).
  { unfold PyFloat.scaled. destruct (Z.leb_spec 0 (L - 72)); [lia|].
    now replace (- (L - 72)) with (72 - L) by lia. }
  assert (Hp : 2 ^ (72 - L) = 2 ^ (52 - L) * 2 ^ 20).
  { rewrite <- Z.pow_add_r by lia. f_equal. lia. }
  assert (Hb : PyFloat.binade n (2 ^ 20) = L - 72).
  { unfold PyFloat.binade. fold L. rewrite Z.log2_pow2 by lia.
    replace (L - 20 - 52) with (L - 72) by lia. rewrite Hs.
    destruct (Z.ltb_spec (n * 2 ^ (72 - L)) (2 ^ 52 * 2 ^ 20)) as [C|C]; [|reflexivity].
    exfalso. rewrite <- Z.pow_add_r in C by lia.
    assert (2 ^ L * 2 ^ (72 - L) <= n * 2 ^ (72 - L)).
    { apply Z.mul_le_mono_nonneg_r; [apply Z.pow_nonneg|]; lia. }
    rewrite <- Z.pow_add_r in H by lia. replace (L + (72 - L)) with (52 + 20) in H by lia.
    lia. }
  unfold PyFloat.round_pos. rewrite Hb, Hs. f_equal.
  unfold PyFloat.rne_div. rewrite Hp, Z.mul_assoc.
  rewrite Z.mod_mul, Z.div_mul by (apply Z.pow_nonzero; lia).
  reflexivity.
Qed.

Lemma file_size_ratio n :
  0 <= n < 2 ^ 53 ->
  exists N D, PyFloat.to_ratio (PyFloat.round_ratio n (1024 * 1024)) = (N, D) /\
              0 < D /\ N * 2 ^ 20 = n * D.
Proof.
  intros [Hn Hu]. unfold PyFloat.round_ratio.
  destruct (Z.compare_spec n 0) as [C|C|C]; [subst | lia |].
  - exists 0, 1. repeat split; lia.
  - rewrite round_pos_exact by lia.
    destruct (Z.log2_spec n C) as [Ll Lu].
    assert (HL : 0 <= Z.log2 n <= 52).
    { split; [apply Z.log2_nonneg|].
      apply Z.lt_succ_r. apply (Z.pow_lt_mono_r_iff 2); lia. }
    set (L := Z.log2 n) in *.
    exists (n * 2 ^ (52 - L)), (2 ^ (72 - L)). split; [|split].
    + unfold PyFloat.to_ratio. cbn [PyFloat.expo PyFloat.mant].
      destruct (Z.leb_spec 0 (L - 72)); [lia|].
      now replace (- (L - 72)) with (72 - L) by lia.
    + apply Z.pow_pos_nonneg; lia.
    + rewrite <- Z.mul_assoc, <- Z.pow_add_r by lia. do 2 f_equal. lia.
Qed.

Lemma sgn_scaled a b c d : 0 < c -> 0 < d -> a * c = b * d -> Z.sgn a = Z.sgn b.
Proof.
  intros Hc Hd E.
  destruct (Z.lt_trichotomy a 0) as [A|[A|A]], (Z.lt_trichotomy b 0) as [Bb|[Bb|Bb]];
    try (subst; reflexivity); try lia; nia.
Qed.

(* ================================================================= *)
(** ** The size report (C1) *)

(** What [show_processed] reports once the buffer is filled, the original
    size not being zero: the reduction is the value of the unguarded
    expression. *)
Lemma show_processed_report B o img disp ui fmt buf :
  App.save_processed B img (App.compression_quality ui) (App.jpeg_quality ui) = Ok (fmt, buf) ->
  PyFloat.is_zero o = false ->
  exists psize q,
    App.get_file_size buf = Ok psize /\
    PyFloat.div (PyFloat.sub o psize) o = Ok q /\
    App.show_processed B o img disp ui
    = ([st_subheader (App.transform_option ui ++ " Image");
        st_image disp;
        st_write_processed_size psize;
        st_write_size_reduction (PyFloat.mul q (PyFloat.of_int 100));
        st_download_button "Download processed image" buf
          ("processed_" ++ App.lower (App.transform_option ui) ++ ".jpg") "image/jpeg"],
       Ok tt).
Proof.
  intros Hs Hz.
  destruct (show_processed_events B o img disp ui fmt buf Hs Hz) as (psize & percent & G & R & E).
  unfold App.size_reduction in R.
  destruct (PyFloat.div (PyFloat.sub o psize) o) as [q|e] eqn:D; [|discriminate].
  cbn [bind] in R. injection R as <-. exists psize, q. auto.
Qed.

(** C1, counterexample.  An upload of size 0 is reported no reduction, and no
    sentinel in its place: the run shows the size and the loading error and
    ends. *)
Lemma size_report_absent_at_zero :
  App.get_file_size [] = Ok PyFloat.zero /\
  App.main Reference.backend (Some []) tiny_widgets
  = ([st_sidebar_write_original_size PyFloat.zero;
      st_error "Error loading image: " (PilError "cannot identify image file")], Ok tt).
Proof. split; vm_compute; reflexivity. Qed.

(** C1, as amended.  The original size is 0 for the empty upload only, and a
    run on it neither raises nor reports a reduction: loading fails, the
    error is shown and the run ends.  Every run either ends without a size
    report or reaches the code that shows the processed image with an
    original size that is not 0.  There the reduction reported is the value
    of [(original - processed) / original * 100], computed on floats without
    a guard; the division does not raise, and an exception that leaves this
    code was raised while the download buffer was filled. *)
Theorem size_report_only_for_nonzero_original (B : Backend) (file : bytes)
    (ui : App.widgets) (o : PyFloat.float) :
  BackendLaws B ->
  App.get_file_size file = Ok o ->
  (PyFloat.is_zero o = true <-> file = []) /\
  (file = [] ->
   exists e,
     App.main B (Some file) ui
     = ([st_sidebar_write_original_size o; st_error "Error loading image: " e], Ok tt)) /\
  ((exists evs,
      App.main B (Some file) ui = (evs, Ok tt) /\
      forall r, ~ In (st_write_size_reduction r) evs) \/
   (PyFloat.is_zero o = false /\
    exists image a d,
      App.main B (Some file) ui
      = ([st_sidebar_write_original_size o; st_subheader "Original Image";
          st_image_pil image; st_subheader "Transformation Controls";
          st_subheader "Compression Controls"]
         ++ fst (App.show_processed B o a d ui),
         snd (App.show_processed B o a d ui)))) /\
  (forall a d fmt buf,
     PyFloat.is_zero o = false ->
     App.save_processed B a (App.compression_quality ui) (App.jpeg_quality ui)
     = Ok (fmt, buf) ->
     exists psize q,
       App.get_file_size buf = Ok psize /\
       PyFloat.div (PyFloat.sub o psize) o = Ok q /\
       App.show_processed B o a d ui
       = ([st_subheader (App.transform_option ui ++ " Image");
           st_image d;
           st_write_processed_size psize;
           st_write_size_reduction (PyFloat.mul q (PyFloat.of_int 100));
           st_download_button "Download processed image" buf
             ("processed_" ++ App.lower (App.transform_option ui) ++ ".jpg") "image/jpeg"],
          Ok tt)) /\
  (forall a d e,
     PyFloat.is_zero o = false ->
     snd (App.show_processed B o a d ui) = Raise e ->
     App.save_processed B a (App.compression_quality ui) (App.jpeg_quality ui) = Raise e).
Proof.
  intros HB Ho.
  pose proof (get_file_size_is_zero file o Ho) as Z0.
  split; [exact Z0|]. split; [|split; [|split]].
  - intros ->. rewrite get_file_size_ok in Ho. injection Ho as <-.
    now apply main_empty_upload.
  - rewrite get_file_size_ok in Ho. injection Ho as Ho.
    destruct (main_run B file ui o (eq_sym Ho))
      as [Stop | (image & cv & a & d & Hopen & _ & _ & E)]; [now left|].
    right. split; [|eauto].
    destruct (PyFloat.is_zero o) eqn:Hz; [|reflexivity].
    exfalso. assert (Hf : file = []) by now apply Z0.
    subst file. destruct (pil_open_empty B HB) as [e0 He0]. congruence.
  - intros a d fmt buf Hz Hs. now apply (show_processed_report B o a d ui fmt buf).
  - intros a d e Hz H.
    destruct (show_processed_raise B o a d ui e H) as [S | [Hz' _]]; [exact S | congruence].
Qed.

Lemma size_report_only_for_nonzero_original_witness :
  (PyFloat.is_zero PyFloat.zero = true <-> @nil byte = []) /\
  (@nil byte = [] ->
   exists e,
     App.main Reference.backend (Some []) tiny_widgets
     = ([st_sidebar_write_original_size PyFloat.zero;
         st_error "Error loading image: " e], Ok tt)).
Proof.
  pose proof (size_report_only_for_nonzero_original Reference.backend [] tiny_widgets
                PyFloat.zero reference_laws eq_refl) as H.
  exact (conj (proj1 H) (proj1 (proj2 H))).
Defined.

(* ================================================================= *)
(** ** Resize (C2, C3, C4, C10) *)

(** C2, counterexample.  A 5 x 5 bitmap at 10 percent: both new sides are
    [int(0.5) = 0], [cv2.resize] rejects the empty size and no bitmap is
    produced. *)
Lemma resize_tiny_bitmap_fails :
  App.process_image Reference.backend gray_5x5 "Resized" 10 100 200 6 85
  = ([st_error "Error processing image: " (CvError "resize: inv_scale_x > 0")],
     Ok (None, None)).
Proof. vm_compute. reflexivity. Qed.

(** C2, as amended.  For a 3-channel bitmap of positive height [h] and width
    [w] and a resize percent [p] in 10..200 other than 100, write
    [h' = floor (h * p / 100)] and [w' = floor (w * p / 100)], both within the
    JPEG dimension limit of the round trip.  When [h'] and [w'] are at least
    1, the resize transform produces a bitmap of height [h'] and width [w']
    (at 50 percent, [floor (h / 2)] and [floor (w / 2)]).  When one of them is
    0, the resampler rejects the empty size: the error is reported and no
    bitmap is produced. *)
Theorem resize_dimensions (B : Backend) (img : ndarray) (h w p el eh cq q : Z) :
  BackendLaws B ->
  shape img = [h; w; 3] -> 0 < h -> 0 < w ->
  10 <= p <= 200 -> p <> 100 ->
  h * p / 100 <= JPEG_MAX_DIMENSION -> w * p / 100 <= JPEG_MAX_DIMENSION ->
  (0 < h * p / 100 -> 0 < w * p / 100 ->
   exists out display,
     App.process_image B img "Resized" p el eh cq q = ([], Ok (Some out, Some display)) /\
     shape out = [h * p / 100; w * p / 100; 3]) /\
  (p = 50 -> h * p / 100 = h / 2 /\ w * p / 100 = w / 2) /\
  (h * p / 100 = 0 \/ w * p / 100 = 0 ->
   App.process_image B img "Resized" p el eh cq q
   = ([st_error "Error processing image: " (CvError "resize: inv_scale_x > 0")],
      Ok (None, None))).
Proof.
  intros HB Hs Hh Hw Hp Hne Mh Mw. split; [|split].
  - intros Ph Pw.
    destruct (resized_ok B HB img h w Hs Hh Hw p el eh cq q Hp Hne) as [d E]; [lia | lia |].
    eexists _, _. split; [exact E | reflexivity].
  - intros ->. split.
    + change 100 with (2 * 50). apply Z.div_mul_cancel_r; lia.
    + change 100 with (2 * 50). apply Z.div_mul_cancel_r; lia.
  - now apply resized_empty.
Qed.

Lemma resize_dimensions_witness :
  exists out display,
    App.process_image Reference.backend gray_20x20 "Resized" 50 100 200 6 85
    = ([], Ok (Some out, Some display)) /\
    shape out = [10; 10; 3].
Proof.
  refine (proj1 (resize_dimensions Reference.backend gray_20x20 20 20 50 100 200 6 85
                   reference_laws eq_refl _ _ _ _ _ _) _ _);
    first [ lia | discriminate | vm_compute; intuition discriminate ].
Defined.

(** C3.  On a 3-channel bitmap of positive height and width, and so on every
    bitmap [convert_to_cv2] hands to the transform, resizing at 100 percent
    returns the input bitmap itself, with no call to the resampling kernel or
    to a codec; the image shown is its RGB reordering. *)
Theorem resize_100_identity (B : Backend) (img : ndarray) (el eh cq q : Z) :
  (forall h w, shape img = [h; w; 3] -> 0 < h -> 0 < w ->
   App.process_image B img "Resized" 100 el eh cq q
   = ([], Ok (Some img, Some (mk_ndarray [h; w; 3] (Cv2.cvt_to3 true 3 (data img)))))) /\
  (forall pil_img evs, App.convert_to_cv2 pil_img = (evs, Ok (Some img)) ->
   exists display,
     App.process_image B img "Resized" 100 el eh cq q = ([], Ok (Some img, Some display)) /\
     shape display = shape img).
Proof.
  assert (P : forall h w, shape img = [h; w; 3] -> 0 < h -> 0 < w ->
    App.process_image B img "Resized" 100 el eh cq q
    = ([], Ok (Some img, Some (mk_ndarray [h; w; 3] (Cv2.cvt_to3 true 3 (data img)))))).
  { intros h w Hs Hh Hw. unfold App.process_image.
    change ("Resized" =? "Resized")%string with true. cbv iota.
    change (negb (100 =? 100)) with false. cbv iota.
    rewrite (cvtColor_bgr2rgb_3 img h w Hs Hh Hw). step. reflexivity. }
  split; [exact P|].
  intros pil_img evs H.
  destruct (convert_to_cv2_canonical pil_img evs img H) as (Hs & Hh & Hw & _).
  eexists. split; [apply (P _ _ Hs Hh Hw)|]. now rewrite Hs.
Qed.

Lemma resize_100_identity_witness :
  App.process_image Reference.backend gray_5x5 "Resized" 100 100 200 6 85
  = ([], Ok (Some gray_5x5,
             Some (mk_ndarray [5; 5; 3] (Cv2.cvt_to3 true 3 (data gray_5x5))))).
Proof.
  refine (proj1 (resize_100_identity Reference.backend gray_5x5 100 200 6 85)
            5 5 eq_refl _ _); lia.
Defined.

(** C4.  For a bitmap and a resize percent other than 100, let [resampled] be
    the area-averaged bitmap of the new size.  The resize transform encodes
    [resampled] as JPEG at [jpeg_quality] and decodes the stream as a colour
    image; what it returns is the decoded bitmap.  When the encoder refuses
    the bitmap the error is reported and nothing is returned. *)
Theorem resize_jpeg_round_trip (B : Backend) (img : ndarray)
    (h w c p el eh cq q width height : Z) (resampled : ndarray) :
  BackendLaws B ->
  dims img = Some (h, w, c) -> p <> 100 ->
  App.scaled_side w p = Ok width -> App.scaled_side h p = Ok height ->
  Cv2.resize (inter_area B) img (width, height) = Ok resampled ->
  data resampled = inter_area B img width height /\
  match cv_jpeg_encode B resampled q with
  | Ok encoded =>
      exists decoded display,
        Cv2.imdecode (cv_decode B) encoded Cv2.IMREAD_COLOR = Ok (Some decoded) /\
        Cv2.cvtColor decoded Cv2.COLOR_BGR2RGB = Ok display /\
        App.process_image B img "Resized" p el eh cq q
        = ([], Ok (Some decoded, Some display))
  | Raise e =>
      App.process_image B img "Resized" p el eh cq q
      = ([st_error "Error processing image: " e], Ok (None, None))
  end.
Proof.
  intros HB Hd Hne Ew Eh Hr.
  destruct (resize_inv _ _ _ _ _ Hr) as (Pw & Ph & [c' Hd'] & Hdata).
  split; [exact Hdata|].
  destruct (dims_shape_at img h w c Hd) as [S0 S1].
  assert (P : App.process_image B img "Resized" p el eh cq q
              = try_except
                  (encoded <- lift (cv_jpeg_encode B resampled q) ;;
                   processed <- lift (Cv2.imdecode (cv_decode B) encoded Cv2.IMREAD_COLOR) ;;
                   display <- lift (App.cvtColor_obj processed Cv2.COLOR_BGR2RGB) ;;
                   ret (processed, Some display))
                  (fun e => emit (st_error "Error processing image: " e) ;;;
                            ret (None, None))).
  { unfold App.process_image.
    change ("Resized" =? "Resized")%string with true. cbv iota.
    destruct (Z.eqb_spec p 100) as [|_]; [contradiction|]. cbv [negb].
    rewrite S1. step. rewrite Ew. step. rewrite S0. step. rewrite Eh. step.
    rewrite Hr. step. reflexivity. }
  rewrite P. clear P.
  destruct (cv_jpeg_encode B resampled q) as [encoded|e] eqn:E; [|reflexivity].
  destruct (jpeg_decode_encode B HB resampled q encoded height width c' E Hd')
    as (stored & Hdec & Hst).
  destruct (apply_flag_color stored height width Hst) as [d Hflag].
  assert (D : Cv2.imdecode (cv_decode B) encoded Cv2.IMREAD_COLOR
              = Ok (Some (mk_ndarray [height; width; 3] d))).
  { unfold Cv2.imdecode.
    destruct encoded as [|b0 encoded]; [exfalso; eapply jpeg_stream_nonempty; eauto|].
    now rewrite Hdec, Hflag. }
  eexists _, _. split; [exact D|].
  split; [apply cvtColor_bgr2rgb_3; [reflexivity | lia | lia]|].
  step. rewrite D. step. cbn [App.cvtColor_obj].
  rewrite (cvtColor_bgr2rgb_3 (mk_ndarray [height; width; 3] d) height width eq_refl Ph Pw).
  step. reflexivity.
Qed.

Lemma resize_jpeg_round_trip_witness :
  data resampled_10x10 = inter_area Reference.backend gray_20x20 10 10 /\
  match cv_jpeg_encode Reference.backend resampled_10x10 85 with
  | Ok encoded =>
      exists decoded display,
        Cv2.imdecode (cv_decode Reference.backend) encoded Cv2.IMREAD_COLOR
        = Ok (Some decoded) /\
        Cv2.cvtColor decoded Cv2.COLOR_BGR2RGB = Ok display /\
        App.process_image Reference.backend gray_20x20 "Resized" 50 100 200 6 85
        = ([], Ok (Some decoded, Some display))
  | Raise e =>
      App.process_image Reference.backend gray_20x20 "Resized" 50 100 200 6 85
      = ([st_error "Error processing image: " e], Ok (None, None))
  end.
Proof.
  apply (resize_jpeg_round_trip Reference.backend gray_20x20 20 20 3 50 100 200 6 85 10 10
           resampled_10x10 reference_laws);
    first [ discriminate | vm_compute; reflexivity ].
Defined.

(** C10.  Whatever the input bitmap, a bitmap returned by the resize
    transform at a percent other than 100 is a 3-D array with exactly 3
    channels (the decode after resampling is a colour read), so the encoder
    behind the download button takes its 3-channel branch: reordering to RGB,
    then Pillow's JPEG writer at [jpeg_quality]; whenever that encoder
    returns, the format is JPEG. *)
Theorem resized_is_three_channel (B : Backend) (img : ndarray)
    (p el eh cq q : Z) (evs : list st_event) (out : ndarray) (disp : option ndarray) :
  p <> 100 ->
  App.process_image B img "Resized" p el eh cq q = (evs, Ok (Some out, disp)) ->
  (exists h w,
     shape out = [h; w; 3] /\
     App.save_processed B out cq q
     = bind (jpeg_write B (mk_pil RGB (w, h) (Cv2.cvt_to3 true 3 (data out))) q true)
         (fun buf => Ok (JPEG, buf))) /\
  (forall saved, App.save_processed B out cq q = Ok saved -> fst saved = JPEG).
Proof.
  intros Hne H.
  destruct (process_image_resized_inv _ _ _ _ _ _ _ _ _ _ Hne H)
    as (s1 & s0 & width & height & resampled & encoded & display
        & _ & _ & _ & _ & _ & _ & D & C & _).
  destruct (imdecode_color_shape _ _ _ D) as (h & w & Hs).
  pose proof (cvtColor_bgr2rgb_3_inv out h w display Hs C) as ->.
  assert (E : App.save_processed B out cq q
              = bind (jpeg_write B (mk_pil RGB (w, h) (Cv2.cvt_to3 true 3 (data out))) q true)
                  (fun buf => Ok (JPEG, buf))).
  { rewrite (save_processed_3 B out cq q h w Hs), C. reflexivity. }
  split; [eauto|].
  rewrite E. intros saved.
  destruct (jpeg_write B _ q true) as [buf|e]; [|discriminate]. cbn [bind].
  now intros [= <-].
Qed.

Lemma resized_is_three_channel_witness :
  (exists h w,
     shape resized_10x10 = [h; w; 3] /\
     App.save_processed Reference.backend resized_10x10 6 85
     = bind (jpeg_write Reference.backend
               (mk_pil RGB (w, h) (Cv2.cvt_to3 true 3 (data resized_10x10))) 85 true)
         (fun buf => Ok (JPEG, buf))) /\
  (forall saved,
     App.save_processed Reference.backend resized_10x10 6 85 = Ok saved ->
     fst saved = JPEG).
Proof.
  apply (resized_is_three_channel Reference.backend gray_20x20 50 100 200 6 85 []
           resized_10x10 (Some resized_10x10));
    [ discriminate | vm_compute; reflexivity ].
Defined.

(* ================================================================= *)
(** ** Grayscale (C5) *)

(** C5.  On a 3-channel bitmap the grayscale transform returns a 2-D
    (single-channel) array of the same height and width, with one 8-bit
    sample per pixel.  On a solid gray 100 x 100 bitmap of level [v], every
    output sample is the specification's luma-weighted value of the colour,
    which is [v] itself; for mid-gray it is 128. *)
Theorem grayscale_single_channel (B : Backend) (img : ndarray) (h w p el eh cq q : Z) :
  shape img = [h; w; 3] -> wf_image img ->
  (exists gray,
     App.process_image B img "Grayscale" p el eh cq q = ([], Ok (Some gray, Some gray)) /\
     shape gray = [h; w] /\
     wf_image gray) /\
  (forall v, 0 <= v <= 255 ->
     App.process_image B (solid 100 100 [v; v; v]) "Grayscale" p el eh cq q
     = ([], Ok (Some (solid2 100 100 (spec_luma v v v)),
                Some (solid2 100 100 (spec_luma v v v))))) /\
  App.process_image B (solid 100 100 [128; 128; 128]) "Grayscale" p el eh cq q
  = ([], Ok (Some (solid2 100 100 128), Some (solid2 100 100 128))).
Proof.
  intros Hs Hwf.
  unfold wf_image, dims in Hwf. rewrite Hs in Hwf.
  destruct Hwf as (Hh & Hw & _ & Hlen & Hrange).
  assert (G : forall v, 0 <= v <= 255 ->
     App.process_image B (solid 100 100 [v; v; v]) "Grayscale" p el eh cq q
     = ([], Ok (Some (solid2 100 100 (spec_luma v v v)),
                Some (solid2 100 100 (spec_luma v v v))))).
  { intros v Hv.
    rewrite (process_image_grayscale B (solid 100 100 [v; v; v]) 100 100 p el eh cq q eq_refl)
      by lia.
    unfold solid. cbn [data]. rewrite cvt_gray_solid, bgr2gray_px_gray.
    rewrite spec_luma_gray by assumption. reflexivity. }
  split; [|split].
  - eexists. split; [apply (process_image_grayscale B img h w); assumption|].
    split; [reflexivity|]. unfold wf_image, dims. cbn [shape data].
    repeat split; try lia.
    + unfold Cv2.cvt_gray. cbn [Z.eqb Pos.eqb].
      rewrite (length_map_px3_one _ (Z.to_nat (h * w))); lia.
    + now apply (Forall_cvt_gray_3 (length (data img))).
  - exact G.
  - rewrite (G 128) by lia. rewrite spec_luma_gray by lia. reflexivity.
Qed.

Lemma grayscale_single_channel_witness :
  exists gray,
    App.process_image Reference.backend two_pixels "Grayscale" 100 100 200 6 85
    = ([], Ok (Some gray, Some gray)) /\
    shape gray = [1; 2] /\
    wf_image gray.
Proof.
  refine (proj1 (grayscale_single_channel Reference.backend two_pixels 1 2 100 100 200 6 85
                   eq_refl _)).
  unfold wf_image. cbn. repeat split; try lia.
  repeat constructor; lia.
Defined.

(* ================================================================= *)
(** ** The encoder and the download button (C6, C8) *)

(** C6 (the code departs from the claim).  The encoder behind the download
    button dispatches on the array as claimed: a 2-D array (a grayscale image
    or an edge map) goes to Pillow's PNG writer, a 3-channel array is first
    reordered from BGR to RGB and goes to the JPEG writer with the JPEG
    quality.  The PNG compression level, however, is passed under the name
    [compression_level], which the PNG writer does not read (its option is
    [compress_level]): the writer is called with [optimize] set and its
    default level, and the PNG bytes are the same at every compression
    level. *)
Theorem png_level_not_passed (B : Backend) (img : ndarray) (h w cq q : Z) :
  (shape img = [h; w] ->
   App.save_processed B img cq q
   = bind (png_write B (mk_pil L (w, h) (data img)) true (-1)) (fun buf => Ok (PNG, buf)) /\
   forall cq', App.save_processed B img cq' q = App.save_processed B img cq q) /\
  (shape img = [h; w; 3] -> 0 < h -> 0 < w ->
   App.save_processed B img cq q
   = bind (jpeg_write B (mk_pil RGB (w, h) (Cv2.cvt_to3 true 3 (data img))) q true)
       (fun buf => Ok (JPEG, buf))).
Proof.
  split.
  - intros Hs. split.
    + now apply save_processed_2.
    + intros cq'. now rewrite !(save_processed_2 B img _ q h w Hs).
  - intros Hs Hh Hw. rewrite (save_processed_3 B img cq q h w Hs).
    now rewrite (cvtColor_bgr2rgb_3 img h w Hs Hh Hw).
Qed.

Lemma png_level_not_passed_witness :
  App.save_processed Reference.backend (solid2 1 1 0) 0 85
  = App.save_processed Reference.backend (solid2 1 1 0) 9 85 /\
  App.save_processed Reference.backend two_pixels 6 85
  = bind (jpeg_write Reference.backend
            (mk_pil RGB (2, 1) [10; 20; 30; 255; 0; 0]) 85 true)
      (fun buf => Ok (JPEG, buf)).
Proof.
  split.
  - exact (proj2 (proj1 (png_level_not_passed Reference.backend (solid2 1 1 0) 1 1 9 85)
                    eq_refl) 0).
  - refine (proj2 (png_level_not_passed Reference.backend two_pixels 1 2 6 85) eq_refl _ _);
      lia.
Defined.

(** C8.  For each of the three transforms, when the processed image was
    encoded (in whichever format, PNG included) and the original size is not
    0, the last thing shown is the download button, with the encoded bytes,
    the file name [processed_<transform in lower case>.jpg] and the MIME type
    [image/jpeg]. *)
Theorem download_artifact_name (B : Backend) (o : PyFloat.float) (img : ndarray)
    (disp : option ndarray) (ui : App.widgets) (fmt : image_format) (buf : bytes) :
  In (App.transform_option ui) ["Resized"; "Grayscale"; "Edge Detection"]%string ->
  App.save_processed B img (App.compression_quality ui) (App.jpeg_quality ui) = Ok (fmt, buf) ->
  PyFloat.is_zero o = false ->
  exists shown name,
    App.show_processed B o img disp ui
    = (shown ++ [st_download_button "Download processed image" buf name "image/jpeg"], Ok tt) /\
    name = ("processed_" ++ App.lower (App.transform_option ui) ++ ".jpg")%string /\
    (App.transform_option ui = "Resized"%string /\ name = "processed_resized.jpg"%string \/
     App.transform_option ui = "Grayscale"%string /\ name = "processed_grayscale.jpg"%string \/
     App.transform_option ui = "Edge Detection"%string /\
       name = "processed_edge detection.jpg"%string).
Proof.
  intros Hin Hs Hz.
  destruct (show_processed_events B o img disp ui fmt buf Hs Hz) as (psize & percent & _ & _ & E).
  eexists [_; _; _; _], _. split; [exact E|]. split; [reflexivity|].
  simpl in Hin. destruct Hin as [<-|[<-|[<-|[]]]]; auto.
Qed.

Lemma download_artifact_name_witness :
  exists buf,
    App.save_processed Reference.backend (solid2 1 1 0) 6 85 = Ok (PNG, buf) /\
    exists shown,
      App.show_processed Reference.backend (PyFloat.mk 1 0) (solid2 1 1 0) None edge_widgets
      = (shown ++ [st_download_button "Download processed image" buf
                     "processed_edge detection.jpg" "image/jpeg"], Ok tt).
Proof.
  eexists. split; [vm_compute; reflexivity|].
  edestruct (download_artifact_name Reference.backend (PyFloat.mk 1 0) (solid2 1 1 0) None
               edge_widgets PNG) as (shown & name & E & Hn & _);
    [ right; right; left; reflexivity | vm_compute; reflexivity | reflexivity | ].
  exists shown. rewrite E, Hn. reflexivity.
Defined.

(* ================================================================= *)
(** ** Conversion to the OpenCV bitmap (C9) *)

(** C9, counterexample.  A grayscale image, whose array is 2-D, is converted:
    [convert_to_cv2] returns a 3-channel bitmap and shows no error. *)
Lemma convert_gray_png_succeeds :
  App.convert_to_cv2 gray_png
  = ([], Ok (Some (mk_ndarray [2; 2; 3]
                     [10; 10; 10; 20; 20; 20; 30; 30; 30; 40; 40; 40]))).
Proof. vm_compute. reflexivity. Qed.

(** C9, as amended.  For an image of positive size whose samples fill it:
    with a single band (a 2-D array) the conversion succeeds and writes each
    sample to the three channels of its pixel; with 3 bands it reverses the
    samples of each pixel; with 4 it drops the fourth and reverses the others;
    with 2 bands it fails, the error is shown and [None] is returned.  When
    the samples do not fill the image, decoding fails inside the conversion,
    with the same outcome.  Every bitmap the conversion returns has 3 channels
    and the image's height and width. *)
Theorem convert_replicates_single_channel (m : pil_mode) (w h : Z) (px : list Z) :
  0 < w -> 0 < h ->
  (Z.of_nat (length px) = w * h * bands m ->
   (bands m = 1 ->
    App.convert_to_cv2 (mk_pil m (w, h) px)
    = ([], Ok (Some (mk_ndarray [h; w; 3] (flat_map (fun v => [v; v; v]) px))))) /\
   (bands m = 3 ->
    App.convert_to_cv2 (mk_pil m (w, h) px)
    = ([], Ok (Some (mk_ndarray [h; w; 3] (Cv2.map_px3 (fun r g b => [b; g; r]) px))))) /\
   (bands m = 4 ->
    App.convert_to_cv2 (mk_pil m (w, h) px)
    = ([], Ok (Some (mk_ndarray [h; w; 3]
                       (Cv2.map_px4 (fun r g b _ => [b; g; r]) px))))) /\
   (bands m = 2 ->
    exists e,
      App.convert_to_cv2 (mk_pil m (w, h) px)
      = ([st_error "Error converting image: " e], Ok None))) /\
  (Z.of_nat (length px) <> w * h * bands m ->
   exists e,
     App.convert_to_cv2 (mk_pil m (w, h) px)
     = ([st_error "Error converting image: " e], Ok None)) /\
  (forall evs out,
     App.convert_to_cv2 (mk_pil m (w, h) px) = (evs, Ok (Some out)) ->
     shape out = [h; w; 3] /\ bands m <> 2 /\ Z.of_nat (length px) = w * h * bands m).
Proof.
  intros Hw Hh. split; [|split].
  - intros Hn. rewrite (convert_to_cv2_complete m w h px Hw Hh Hn).
    repeat split; intros ->; cbn [Z.eqb Pos.eqb]; eauto.
    now rewrite (drop_alpha_then_swap (length px)).
  - intros Hn. rewrite convert_to_cv2_eq.
    destruct (Z.eqb_spec (Z.of_nat (length px)) (w * h * bands m)); [contradiction|].
    cbn [negb]. eauto.
  - intros evs out. rewrite convert_to_cv2_eq.
    destruct (Z.eqb_spec (Z.of_nat (length px)) (w * h * bands m)) as [Hn|];
      [|discriminate]. cbn [negb].
    rewrite is_empty_false by assumption.
    destruct (Z.eqb_spec (bands m) 1) as [E1|N1].
    { intros [= <- <-]. repeat split; auto. lia. }
    destruct (Z.eqb_spec (bands m) 3) as [E3|N3].
    { intros [= <- <-]. repeat split; auto. lia. }
    destruct (Z.eqb_spec (bands m) 4) as [E4|N4]; [|discriminate].
    intros [= <- <-]. repeat split; auto. lia.
Qed.

Lemma convert_replicates_single_channel_witness :
  App.convert_to_cv2 palette_png
  = ([], Ok (Some (mk_ndarray [2; 1; 3] [3; 3; 3; 7; 7; 7]))).
Proof.
  refine (proj1 (proj1 (convert_replicates_single_channel P 1 2 [3; 7] _ _) _) _);
    first [lia | reflexivity].
Defined.

(* ================================================================= *)
(** ** Edge detection (C7) *)



(* ================================================================= *)
(** ** Further properties of the program *)

(** X1.  [int(n * p / 100)], computed as the program computes it (a float
    division, then truncation), is the floor of [n * p / 100] as long as the
    product is below [2^53]. *)
Theorem scaled_side_is_floor (n p : Z) :
  0 <= n * p < 2 ^ 53 -> App.scaled_side n p = Ok (n * p / 100).
Proof. apply scaled_side_floor. Qed.

Lemma scaled_side_is_floor_witness : App.scaled_side 1999 37 = Ok 739.
Proof. apply (scaled_side_is_floor 1999 37). lia. Defined.

(** X2.  An RGBA image of positive size whose samples fill it is converted by
    dropping the alpha sample of every pixel and reversing the other three:
    the bitmap is BGR. *)
Theorem convert_rgba_drops_alpha (w h : Z) (px : list Z) :
  0 < w -> 0 < h -> Z.of_nat (length px) = w * h * 4 ->
  App.convert_to_cv2 (mk_pil RGBA (w, h) px)
  = ([], Ok (Some (mk_ndarray [h; w; 3] (Cv2.map_px4 (fun r g b _ => [b; g; r]) px)))).
Proof.
  intros Hw Hh Hn. rewrite (convert_to_cv2_complete RGBA w h px Hw Hh Hn).
  cbn [bands Z.eqb Pos.eqb]. now rewrite (drop_alpha_then_swap (length px)).
Qed.

Lemma convert_rgba_drops_alpha_witness :
  App.convert_to_cv2 rgba_pixel = ([], Ok (Some (mk_ndarray [1; 1; 3] [30; 20; 10]))).
Proof.
  apply (convert_rgba_drops_alpha 1 1 [10; 20; 30; 255]); first [lia | reflexivity].
Defined.

(** X3.  A transform name other than the three the select box offers gives no
    bitmap and reports nothing. *)
Theorem unknown_transform_returns_none (B : Backend) (img : ndarray) (t : string)
    (p el eh cq q : Z) :
  ~ In t ["Resized"; "Grayscale"; "Edge Detection"]%string ->
  App.process_image B img t p el eh cq q = ([], Ok (None, None)).
Proof.
  intros H. unfold App.process_image.
  destruct (String.eqb_spec t "Resized") as [->|_]; [exfalso; apply H; cbn; auto|].
  destruct (String.eqb_spec t "Grayscale") as [->|_]; [exfalso; apply H; cbn; auto|].
  destruct (String.eqb_spec t "Edge Detection") as [->|_]; [exfalso; apply H; cbn; auto|].
  reflexivity.
Qed.

Lemma unknown_transform_returns_none_witness :
  App.process_image Reference.backend gray_5x5 "Sepia" 100 100 200 6 85 = ([], Ok (None, None)).
Proof.
  apply (unknown_transform_returns_none Reference.backend gray_5x5 "Sepia" 100 100 200 6 85).
  cbn. intuition discriminate.
Defined.

(** X4.  When Pillow cannot open the upload, [main] shows the original size
    and the error and stops: nothing is processed and nothing is raised. *)
Theorem main_load_failure (B : Backend) (file : bytes) (e : exn) (ui : App.widgets) :
  pil_open B file = Raise e ->
  exists original_size,
    App.get_file_size file = Ok original_size /\
    App.main B (Some file) ui
    = ([st_sidebar_write_original_size original_size;
        st_error "Error loading image: " e], Ok tt).
Proof.
  intros He. eexists. split; [apply get_file_size_ok|].
  unfold App.main.
  change (PyFloat.truediv_int (Z.of_nat (length file)) (1024 * 1024))
    with (Ok (PyFloat.round_ratio (Z.of_nat (length file)) (1024 * 1024))).
  step. rewrite io_bind_emit. rewrite (load_image_raise B file e He). reflexivity.
Qed.

Lemma main_load_failure_witness :
  exists original_size,
    App.get_file_size [byte.of_Z 0] = Ok original_size /\
    App.main Reference.backend (Some [byte.of_Z 0]) tiny_widgets
    = ([st_sidebar_write_original_size original_size;
        st_error "Error loading image: " (PilError "cannot identify image file")], Ok tt).
Proof.
  apply (main_load_failure Reference.backend [byte.of_Z 0]
           (PilError "cannot identify image file") tiny_widgets).
  reflexivity.
Defined.

(** X5.  One run of [main] on an RGB upload whose data decodes completely,
    with the grayscale transform: the page shows the original, the grayscale
    image, the two sizes and the reduction, and a download button whose bytes
    are the PNG of the grayscale image, named [processed_grayscale.jpg] with
    type [image/jpeg]. *)
Theorem main_grayscale_download (B : Backend) (file : bytes) (w h : Z) (px : list Z)
    (buf : bytes) (ui : App.widgets) :
  file <> [] ->
  pil_open B file = Ok (mk_pil RGB (w, h) px) -> 0 < w -> 0 < h ->
  Z.of_nat (length px) = w * h * 3 ->
  App.transform_option ui = "Grayscale"%string ->
  png_write B (mk_pil L (w, h) (Cv2.cvt_gray 3 (Cv2.cvt_to3 true 3 px))) true (-1) = Ok buf ->
  exists original_size processed_size percent,
    App.main B (Some file) ui
    = ([st_sidebar_write_original_size original_size;
        st_subheader "Original Image";
        st_image_pil (mk_pil RGB (w, h) px);
        st_subheader "Transformation Controls";
        st_subheader "Compression Controls";
        st_subheader "Grayscale Image";
        st_image (Some (mk_ndarray [h; w] (Cv2.cvt_gray 3 (Cv2.cvt_to3 true 3 px))));
        st_write_processed_size processed_size;
        st_write_size_reduction percent;
        st_download_button "Download processed image" buf
          "processed_grayscale.jpg" "image/jpeg"],
       Ok tt).
Proof.
  intros Hf Ho Hw Hh Hn Ht Hp.
  set (gray := mk_ndarray [h; w] (Cv2.cvt_gray 3 (Cv2.cvt_to3 true 3 px))).
  set (o := PyFloat.round_ratio (Z.of_nat (length file)) (1024 * 1024)).
  assert (Hz : PyFloat.is_zero o = false).
  { destruct (PyFloat.is_zero o) eqn:E; [|reflexivity].
    exfalso. apply Hf. eapply get_file_size_is_zero; [apply get_file_size_ok | exact E]. }
  assert (Hs : App.save_processed B gray (App.compression_quality ui) (App.jpeg_quality ui)
               = Ok (PNG, buf)).
  { rewrite (save_processed_2 B gray _ _ h w eq_refl). cbn [data gray]. now rewrite Hp. }
  destruct (show_processed_events B o gray (Some gray) ui PNG buf Hs Hz)
    as (psize & percent & _ & _ & E).
  exists o, psize, percent.
  unfold App.main.
  change (PyFloat.truediv_int (Z.of_nat (length file)) (1024 * 1024)) with (Ok o).
  step. rewrite io_bind_emit.
  rewrite (load_image_ok B file _ Ho), io_bind_nil_ok.
  rewrite (convert_to_cv2_complete RGB w h px Hw Hh Hn).
  cbn [bands Z.eqb Pos.eqb]. rewrite io_bind_nil_ok.
  rewrite !io_bind_emit.
  rewrite Ht.
  rewrite (process_image_grayscale B (mk_ndarray [h; w; 3] (Cv2.cvt_to3 true 3 px))
             h w _ _ _ _ _ eq_refl Hh Hw).
  rewrite io_bind_nil_ok. cbn [fst snd data].
  fold gray. rewrite E. rewrite Ht. reflexivity.
Qed.

Lemma main_grayscale_download_witness :
  exists original_size processed_size percent,
    App.main Reference.backend (Some rgb_file) tiny_widgets
    = ([st_sidebar_write_original_size original_size;
        st_subheader "Original Image";
        st_image_pil (mk_pil RGB (2, 1) [10; 20; 30; 10; 20; 30]);
        st_subheader "Transformation Controls";
        st_subheader "Compression Controls";
        st_subheader "Grayscale Image";
        st_image (Some (mk_ndarray [1; 2]
                          (Cv2.cvt_gray 3 (Cv2.cvt_to3 true 3 [10; 20; 30; 10; 20; 30]))));
        st_write_processed_size processed_size;
        st_write_size_reduction percent;
        st_download_button "Download processed image"
          (map byte.of_Z [80; 0; 1; 0; 2; 1; 18; 18])
          "processed_grayscale.jpg" "image/jpeg"],
       Ok tt).
Proof.
  apply (main_grayscale_download Reference.backend rgb_file 2 1 [10; 20; 30; 10; 20; 30]
           (map byte.of_Z [80; 0; 1; 0; 2; 1; 18; 18]) tiny_widgets);
    first [ discriminate | lia | vm_compute; reflexivity ].
Defined.

(** X6.  The three helpers let no exception out.  [load_image] and
    [convert_to_cv2] return their result and show nothing, or return [None]
    after showing the one error they caught; [process_image] returns a bitmap
    together with the image to display, or neither, and shows at most the one
    error it caught. *)
Theorem helpers_show_their_errors (B : Backend) (file : bytes) (pil_img : pil_image)
    (img : ndarray) (t : string) (p el eh cq q : Z) :
  ((exists im, App.load_image B file = ([], Ok (Some im))) \/
   (exists e, App.load_image B file = ([st_error "Error loading image: " e], Ok None))) /\
  ((exists out, App.convert_to_cv2 pil_img = ([], Ok (Some out))) \/
   (exists e, App.convert_to_cv2 pil_img
              = ([st_error "Error converting image: " e], Ok None))) /\
  ((exists a d, App.process_image B img t p el eh cq q = ([], Ok (Some a, Some d))) \/
   App.process_image B img t p el eh cq q = ([], Ok (None, None)) \/
   (exists e, App.process_image B img t p el eh cq q
              = ([st_error "Error processing image: " e], Ok (None, None)))).
Proof.
  split; [|split].
  - destruct (load_image_outcomes B file) as [(im & _ & E)|(e & _ & E)]; eauto.
  - apply convert_to_cv2_outcomes.
  - apply process_image_outcomes.
Qed.



(** X8.  The PNG compression slider changes nothing: two runs of [main] that
    differ in its value only show the same and offer the same download,
    whatever the upload and the transform. *)
Theorem compression_slider_has_no_effect (B : Backend) (upload : option bytes)
    (p el eh cq cq' q : Z) (t : string) :
  App.main B upload (App.mk_widgets p el eh cq q t)
  = App.main B upload (App.mk_widgets p el eh cq' q t).
Proof.
  apply main_ext; cbn [App.transform_option App.resize_percent App.edge_low App.edge_high
                        App.compression_quality App.jpeg_quality].
  - reflexivity.
  - intros cv. reflexivity.
  - intros. apply save_processed_level_unread.
Qed.

(** X9.  A slider matters under its own transform only.  With the grayscale
    transform the run does not depend on the resize percentage, the two edge
    thresholds and the JPEG quality; with edge detection it does not depend
    on the resize percentage and the JPEG quality; with the resize it does
    not depend on the edge thresholds. *)
Theorem sliders_affect_only_their_transform (B : Backend) (upload : option bytes)
    (p p' el el' eh eh' cq q q' : Z) :
  App.main B upload (App.mk_widgets p el eh cq q "Grayscale")
  = App.main B upload (App.mk_widgets p' el' eh' cq q' "Grayscale") /\
  App.main B upload (App.mk_widgets p el eh cq q "Edge Detection")
  = App.main B upload (App.mk_widgets p' el eh cq q' "Edge Detection") /\
  App.main B upload (App.mk_widgets p el eh cq q "Resized")
  = App.main B upload (App.mk_widgets p el' eh' cq q "Resized").
Proof.
  split; [|split];
    apply main_ext; cbn [App.transform_option App.resize_percent App.edge_low App.edge_high
                          App.compression_quality App.jpeg_quality];
    try reflexivity; try (intros cv; reflexivity).
  - intros image evc cv evs a d Hc Hp.
    eapply plane_output_save; [| exact Hc | exact Hp]; auto.
  - intros image evc cv evs a d Hc Hp.
    eapply plane_output_save; [| exact Hc | exact Hp]; auto.
Qed.

(** X10.  At 100 percent the resize gives back the upload.  For an RGB image
    of positive size whose samples fill it, the image displayed is the array
    of the uploaded image, and the JPEG writer behind the download button is
    given the uploaded image itself: the two channel reversals cancel. *)
Theorem resize_100_shows_the_upload (B : Backend) (w h : Z) (px : list Z)
    (el eh cq q : Z) :
  0 < w -> 0 < h -> Z.of_nat (length px) = w * h * 3 ->
  exists cv upload_array,
    np_array (mk_pil RGB (w, h) px) = Ok upload_array /\
    App.convert_to_cv2 (mk_pil RGB (w, h) px) = ([], Ok (Some cv)) /\
    App.process_image B cv "Resized" 100 el eh cq q
    = ([], Ok (Some cv, Some upload_array)) /\
    App.save_processed B cv cq q
    = bind (jpeg_write B (mk_pil RGB (w, h) px) q true) (fun buf => Ok (JPEG, buf)).
Proof.
  intros Hw Hh Hn.
  assert (Hl : length px = (3 * Z.to_nat (w * h))%nat) by lia.
  exists (mk_ndarray [h; w; 3] (Cv2.cvt_to3 true 3 px)), (mk_ndarray [h; w; 3] px).
  split; [|split; [|split]].
  - unfold np_array. cbn [size mode pixels bands].
    now rewrite (proj2 (Z.eqb_eq _ _) Hn).
  - now rewrite (convert_to_cv2_complete RGB w h px Hw Hh Hn).
  - rewrite (process_image_resized_100 B (mk_ndarray [h; w; 3] (Cv2.cvt_to3 true 3 px))
               h w el eh cq q eq_refl Hh Hw).
    cbn [data]. now rewrite (swap_twice _ px Hl).
  - rewrite (save_processed_3 B (mk_ndarray [h; w; 3] (Cv2.cvt_to3 true 3 px))
               cq q h w eq_refl).
    rewrite (cvtColor_bgr2rgb_3 (mk_ndarray [h; w; 3] (Cv2.cvt_to3 true 3 px))
               h w eq_refl Hh Hw).
    cbn [data bind]. rewrite (swap_twice _ px Hl). reflexivity.
Qed.

Lemma resize_100_shows_the_upload_witness :
  exists cv upload_array,
    np_array rgb_pixel = Ok upload_array /\
    App.convert_to_cv2 rgb_pixel = ([], Ok (Some cv)) /\
    App.process_image Reference.backend cv "Resized" 100 100 200 6 85
    = ([], Ok (Some cv, Some upload_array)) /\
    App.save_processed Reference.backend cv 6 85
    = bind (jpeg_write Reference.backend rgb_pixel 85 true) (fun buf => Ok (JPEG, buf)).
Proof.
  apply (resize_100_shows_the_upload Reference.backend 1 1 [10; 20; 30] 100 200 6 85).
  - lia.
  - lia.
  - reflexivity.
Defined.

(** X11.  The grayscale weights meet the channels they are meant for, the
    detour through BGR notwithstanding: for an RGB upload whose samples fill
    it, with samples [r; g; b] per pixel, the grayscale sample is
    [(9798 r + 19235 g + 3735 b + 16384) / 32768], red weighted by 9798 and
    blue by 3735. *)
Theorem grayscale_weights_follow_the_channels (B : Backend) (w h : Z) (px : list Z)
    (p el eh cq q : Z) :
  0 < w -> 0 < h -> Z.of_nat (length px) = w * h * 3 ->
  (exists cv,
     App.convert_to_cv2 (mk_pil RGB (w, h) px) = ([], Ok (Some cv)) /\
     App.process_image B cv "Grayscale" p el eh cq q
     = ([], Ok (Some (mk_ndarray [h; w]
                        (Cv2.map_px3 (fun r g b => [Cv2.bgr2gray_px b g r]) px)),
                Some (mk_ndarray [h; w]
                        (Cv2.map_px3 (fun r g b => [Cv2.bgr2gray_px b g r]) px))))) /\
  (forall r g b,
     Cv2.bgr2gray_px b g r = (9798 * r + 19235 * g + 3735 * b + 16384) / 32768).
Proof.
  intros Hw Hh Hn. split.
  - exists (mk_ndarray [h; w; 3] (Cv2.cvt_to3 true 3 px)). split.
    + now rewrite (convert_to_cv2_complete RGB w h px Hw Hh Hn).
    + rewrite (process_image_grayscale B (mk_ndarray [h; w; 3] (Cv2.cvt_to3 true 3 px))
                 h w p el eh cq q eq_refl Hh Hw).
      cbn [data]. now rewrite (gray_after_swap (length px)).
  - intros r g b. unfold Cv2.bgr2gray_px.
    rewrite Z.shiftr_div_pow2 by (unfold Cv2.gray_shift; lia).
    unfold Cv2.BY15, Cv2.GY15, Cv2.RY15, Cv2.gray_shift.
    change (Z.shiftl 1 (15 - 1)) with 16384. change (2 ^ 15) with 32768.
    f_equal. lia.
Qed.

Lemma grayscale_weights_follow_the_channels_witness :
  (exists cv,
     App.convert_to_cv2 rgb_pixel = ([], Ok (Some cv)) /\
     App.process_image Reference.backend cv "Grayscale" 100 100 200 6 85
     = ([], Ok (Some (mk_ndarray [1; 1]
                        (Cv2.map_px3 (fun r g b => [Cv2.bgr2gray_px b g r]) [10; 20; 30])),
                Some (mk_ndarray [1; 1]
                        (Cv2.map_px3 (fun r g b => [Cv2.bgr2gray_px b g r]) [10; 20; 30]))))) /\
  (forall r g b,
     Cv2.bgr2gray_px b g r = (9798 * r + 19235 * g + 3735 * b + 16384) / 32768).
Proof.
  apply (grayscale_weights_follow_the_channels Reference.backend 1 1 [10; 20; 30]
           100 100 200 6 85); first [lia | reflexivity].
Defined.

(** X12.  The format of the download follows the transform: the bitmap of a
    resize is written as JPEG, that of the grayscale and of the edge
    transform as PNG. *)
Theorem format_follows_transform (B : Backend) (img : ndarray) (h w : Z) (t : string)
    (p el eh cq q : Z) (evs : list st_event) (a : ndarray) (d : option ndarray)
    (saved : image_format * bytes) :
  shape img = [h; w; 3] -> 0 < h -> 0 < w ->
  App.process_image B img t p el eh cq q = (evs, Ok (Some a, d)) ->
  App.save_processed B a cq q = Ok saved ->
  (t = "Resized"%string /\ fst saved = JPEG) \/
  ((t = "Grayscale"%string \/ t = "Edge Detection"%string) /\ fst saved = PNG).
Proof.
  intros Hs Hh Hw Hp Hsv.
  destruct (process_image_output_shape B img _ _ _ _ _ _ _ _ _ _ _ Hs Hh Hw Hp)
    as [[Ht (h' & w' & S & Hh' & Hw')] | [Ht (h' & w' & S)]].
  - left. split; [exact Ht|].
    rewrite (save_processed_3 B a cq q h' w' S) in Hsv.
    rewrite (cvtColor_bgr2rgb_3 a h' w' S Hh' Hw') in Hsv. cbn [bind Pil.fromarray shape] in Hsv.
    cbn in Hsv. destruct (jpeg_write B _ q true); [|discriminate]. now injection Hsv as <-.
  - right. split; [exact Ht|].
    rewrite (save_processed_2 B a cq q h' w' S) in Hsv.
    destruct (png_write B _ true (-1)); [|discriminate]. now injection Hsv as <-.
Qed.

Lemma format_follows_transform_witness :
  ("Edge Detection"%string = "Resized"%string /\ fst (PNG, flat_edges_png) = JPEG) \/
  (("Edge Detection"%string = "Grayscale"%string \/
    "Edge Detection"%string = "Edge Detection"%string) /\
   fst (PNG, flat_edges_png) = PNG).
Proof.
  apply (format_follows_transform Reference.backend flat_4x4 4 4 "Edge Detection"
           100 100 200 6 85 [] (solid2 4 4 0) (Some (solid2 4 4 0))).
  - reflexivity.
  - lia.
  - lia.
  - vm_compute. reflexivity.
  - vm_compute. reflexivity.
Defined.

(** X13.  The two edge thresholds may be given in either order: exchanging
    the values of the two sliders changes nothing in the run. *)
Theorem edge_thresholds_commute (B : Backend) (upload : option bytes)
    (p el eh cq q : Z) :
  App.main B upload (App.mk_widgets p el eh cq q "Edge Detection")
  = App.main B upload (App.mk_widgets p eh el cq q "Edge Detection").
Proof.
  assert (P : forall cv,
    App.process_image B cv "Edge Detection" p el eh cq q
    = App.process_image B cv "Edge Detection" p eh el cq q).
  { intros cv. unfold App.process_image.
    change ("Edge Detection" =? "Resized")%string with false.
    change ("Edge Detection" =? "Grayscale")%string with false.
    change ("Edge Detection" =? "Edge Detection")%string with true. cbv iota.
    apply f_equal2; [|reflexivity].
    apply io_bind_ext_on. intros g _. apply io_bind_ext_on. intros bl _.
    now rewrite Canny_thresholds_commute. }
  apply main_ext; cbn [App.transform_option App.resize_percent App.edge_low App.edge_high
                        App.compression_quality App.jpeg_quality].
  - reflexivity.
  - exact P.
  - reflexivity.
Qed.

(** X14.  For an upload that is not empty and files below 2^53 bytes, the
    size reduction is computed without error and has the sign of the
    difference of the byte counts: positive when the processed file is
    smaller than the upload, zero when they are as long, negative when it is
    larger. *)
Theorem size_reduction_sign (orig buf : bytes) (o s : PyFloat.float) :
  orig <> [] ->
  Z.of_nat (length orig) < 2 ^ 53 -> Z.of_nat (length buf) < 2 ^ 53 ->
  App.get_file_size orig = Ok o -> App.get_file_size buf = Ok s ->
  exists r, App.size_reduction o s = Ok r /\
            Z.sgn (PyFloat.mant r)
            = Z.sgn (Z.of_nat (length orig) - Z.of_nat (length buf)).
Proof.
  intros Hne Ho Hs Eo Es.
  assert (Hz : PyFloat.is_zero o = false).
  { destruct (PyFloat.is_zero o) eqn:Z0; [|reflexivity].
    apply (get_file_size_is_zero orig o Eo) in Z0. contradiction. }
  rewrite get_file_size_ok in Eo, Es. injection Eo as <-. injection Es as <-.
  set (n := Z.of_nat (length orig)) in *. set (m := Z.of_nat (length buf)) in *.
  assert (Hn : 0 < n).
  { unfold n. destruct orig; [contradiction | cbn [length]; lia]. }
  destruct (file_size_ratio n ltac:(lia)) as (N1 & D1 & R1 & HD1 & E1).
  destruct (file_size_ratio m ltac:(unfold m; lia)) as (N2 & D2 & R2 & HD2 & E2).
  unfold App.size_reduction, PyFloat.div. rewrite Hz.
  change (1024 * 1024) with 1048576 in R1, R2.
  unfold PyFloat.sub. rewrite R1, R2.
  set (d := PyFloat.round_ratio (N1 * D2 - N2 * D1) (D1 * D2)).
  assert (Sd : Z.sgn (PyFloat.mant d) = Z.sgn (n - m)).
  { unfold d. rewrite round_ratio_sgn by lia.
    apply (sgn_scaled _ _ (2 ^ 20) (D1 * D2)); [lia | lia | nia]. }
  destruct (PyFloat.to_ratio d) as [nx dx] eqn:Rd.
  destruct (to_ratio_sgn _ _ _ Rd) as [Hdx Sx].
  assert (HN1 : 0 < N1) by nia.
  destruct (Z.ltb_spec 0 N1); [|lia]. cbn [bind]. eexists. split; [reflexivity|].
  unfold PyFloat.mul.
  set (q := PyFloat.round_ratio (nx * D1) (dx * N1)).
  assert (Sq : Z.sgn (PyFloat.mant q) = Z.sgn nx).
  { unfold q. rewrite round_ratio_sgn by lia. rewrite Z.sgn_mul, (Z.sgn_pos D1); lia. }
  destruct (PyFloat.to_ratio q) as [nq dq] eqn:Rq.
  destruct (to_ratio_sgn _ _ _ Rq) as [Hdq Sq'].
  destruct (PyFloat.to_ratio (PyFloat.of_int 100)) as [nc dc] eqn:Rc.
  destruct (to_ratio_sgn _ _ _ Rc) as [Hdc Sc].
  unfold PyFloat.of_int in Sc. rewrite round_ratio_sgn in Sc by lia.
  rewrite round_ratio_sgn by lia. rewrite Z.sgn_mul, Sc. cbn [Z.sgn]. lia.
Qed.

Lemma size_reduction_sign_witness :
  exists r, App.size_reduction (PyFloat.round_ratio 2 (1024 * 1024))
              (PyFloat.round_ratio 1 (1024 * 1024)) = Ok r /\
            Z.sgn (PyFloat.mant r) = 1.
Proof.
  exact (size_reduction_sign [Byte.x00; Byte.x01] [Byte.x00] _ _
           ltac:(discriminate) ltac:(vm_compute; reflexivity) ltac:(vm_compute; reflexivity)
           eq_refl eq_refl).
Defined.

(** X15.  A CMYK image is read as if it were RGBA: the conversion treats it
    as it treats the RGBA image with the same samples, and when the samples
    fill the image its fourth sample, the black component, is dropped from
    every pixel and the other three are reversed, with no conversion of the
    colour space. *)
Theorem convert_reads_cmyk_as_rgba (w h : Z) (px : list Z) :
  0 < w -> 0 < h ->
  App.convert_to_cv2 (mk_pil CMYK (w, h) px) = App.convert_to_cv2 (mk_pil RGBA (w, h) px) /\
  (Z.of_nat (length px) = w * h * 4 ->
   App.convert_to_cv2 (mk_pil CMYK (w, h) px)
   = ([], Ok (Some (mk_ndarray [h; w; 3] (Cv2.map_px4 (fun c m y _ => [y; m; c]) px))))).
Proof.
  intros Hw Hh. split.
  - now rewrite !convert_to_cv2_eq.
  - intros Hn. rewrite (convert_to_cv2_complete CMYK w h px Hw Hh Hn).
    cbn [bands Z.eqb Pos.eqb]. now rewrite (drop_alpha_then_swap (length px)).
Qed.

Lemma convert_reads_cmyk_as_rgba_witness :
  App.convert_to_cv2 cmyk_pixel
  = ([], Ok (Some (mk_ndarray [1; 1; 3] [30; 20; 10]))).
Proof.
  refine (proj2 (convert_reads_cmyk_as_rgba 1 1 [10; 20; 30; 40] _ _) _);
    first [lia | reflexivity].
Defined.
